(** * Parameter mapping, parameter parsing, systematics wiring and the
    Student-t likelihood of firecrown / tjpcosmo, embedded in Rocq.

    Python floats are IEEE binary64 numbers, so they are modelled by Rocq's
    primitive floats: [+], [*], [-] and [/] below round exactly as CPython
    and numpy do, and decimal literals such as [3.046] denote the same
    nearest double in both languages.  Python's [==] on floats is
    [PrimFloat.eqb] (so [-0.0 == 0.0]); Rocq's [=] is bitwise equality. *)

From Stdlib Require Import Floats ZArith String List Bool Lia.
Import ListNotations.

Set Warnings "-inexact-float,-register-all".
Open Scope string_scope.

(* ------------------------------------------------------------------ *)
(** ** Python values, exceptions and the error monad *)

(** The dynamic values that flow through the code under study. *)
Inductive pyval : Type :=
| PNone
| PInt (n : Z)
| PFloat (f : float)
| PStr (s : string)
| PList (l : list pyval).

(** The built-in exceptions the code can raise, with their messages. *)
Inductive exn : Type :=
| KeyError (key : string)
| TypeError (msg : string)
| ValueError (msg : string)
| IndexError (msg : string)
| OverflowError (msg : string).

(** A Python computation either returns or raises. *)
Inductive result (A : Type) : Type :=
| Ok (a : A)
| Raise (e : exn).
Arguments Ok {A} a.
Arguments Raise {A} e.

Definition bind {A B : Type} (c : result A) (k : A -> result B) : result B :=
  match c with
  | Ok a => k a
  | Raise e => Raise e
  end.

Notation "x <- c ;; k" := (bind c (fun x => k))
  (at level 61, c at next level, right associativity).

(** A Python [dict] with string keys, in insertion order (keys are unique
    in a real dict; lookup returns the first binding). *)
Definition dict := list (string * pyval).

Fixpoint dict_lookup {V : Type} (d : list (string * V)) (k : string) : option V :=
  match d with
  | [] => None
  | (k', v) :: rest => if String.eqb k k' then Some v else dict_lookup rest k
  end.

(** [d[k]] *)
Definition getitem (d : dict) (k : string) : result pyval :=
  match dict_lookup d k with
  | Some v => Ok v
  | None => Raise (KeyError k)
  end.

(** [d.get(k, default)] *)
Definition dict_get (d : dict) (k : string) (default : pyval) : pyval :=
  match dict_lookup d k with
  | Some v => v
  | None => default
  end.

(** Exceptions beyond [exn] raised by the code: attribute lookups
    on the wrong kind of object and undefined global names. *)
Inductive exn_ext : Type :=
| Exn (e : exn)
| AttributeError (msg : string)
| NameError (msg : string).

Inductive outcome (A : Type) : Type :=
| Done (a : A)
| Fail (e : exn_ext).
Arguments Done {A} a.
Arguments Fail {A} e.

Definition obind {A B : Type} (c : outcome A) (k : A -> outcome B) : outcome B :=
  match c with
  | Done a => k a
  | Fail e => Fail e
  end.

Notation "x <-? c ;; k" := (obind c (fun x => k))
  (at level 61, c at next level, right associativity).

Definition lift {A : Type} (c : result A) : outcome A :=
  match c with
  | Ok a => Done a
  | Raise e => Fail (Exn e)
  end.

(* ------------------------------------------------------------------ *)
(** ** Python arithmetic on numbers *)

(** [float(n)] for a Python int: round to nearest even, and raise
    [OverflowError] when the integer is beyond the binary64 range. *)
Definition int_to_float (n : Z) : result float :=
  match SpecFloat.binary_normalize FloatOps.prec FloatOps.emax n 0%Z false with
  | S754_infinity _ => Raise (OverflowError "int too large to convert to float")
  | sf => Ok (FloatOps.SF2Prim sf)
  end.

Definition add_err : exn := TypeError "unsupported operand type(s) for +".
Definition mul_err : exn := TypeError "unsupported operand type(s) for *".
Definition neg_err : exn := TypeError "bad operand type for unary -".

(** [a + b] *)
Definition py_add (a b : pyval) : result pyval :=
  match a, b with
  | PInt x, PInt y => Ok (PInt (x + y))
  | PFloat x, PFloat y => Ok (PFloat (x + y)%float)
  | PInt x, PFloat y => x' <- int_to_float x ;; Ok (PFloat (x' + y)%float)
  | PFloat x, PInt y => y' <- int_to_float y ;; Ok (PFloat (x + y')%float)
  | PStr x, PStr y => Ok (PStr (String.append x y))
  | PList x, PList y => Ok (PList (app x y))
  | _, _ => Raise add_err
  end.

Fixpoint repeat_str (s : string) (n : nat) : string :=
  match n with
  | O => EmptyString
  | S m => String.append s (repeat_str s m)
  end.

Fixpoint repeat_list (l : list pyval) (n : nat) : list pyval :=
  match n with
  | O => []
  | S m => app l (repeat_list l m)
  end.

(** [a * b], with the sequence repetitions [str * int] and [list * int]. *)
Definition py_mul (a b : pyval) : result pyval :=
  match a, b with
  | PInt x, PInt y => Ok (PInt (x * y))
  | PFloat x, PFloat y => Ok (PFloat (x * y)%float)
  | PInt x, PFloat y => x' <- int_to_float x ;; Ok (PFloat (x' * y)%float)
  | PFloat x, PInt y => y' <- int_to_float y ;; Ok (PFloat (x * y')%float)
  | PStr s, PInt n | PInt n, PStr s => Ok (PStr (repeat_str s (Z.to_nat n)))
  | PList l, PInt n | PInt n, PList l => Ok (PList (repeat_list l (Z.to_nat n)))
  | _, _ => Raise mul_err
  end.

(** [-a] *)
Definition py_neg (a : pyval) : result pyval :=
  match a with
  | PInt x => Ok (PInt (- x))
  | PFloat x => Ok (PFloat (- x)%float)
  | _ => Raise neg_err
  end.

(** Truthiness of a float: [bool(x)] is [x != 0.0]. *)
Definition float_truthy (x : float) : bool := negb (PrimFloat.eqb x 0%float).

(* ------------------------------------------------------------------ *)
(** ** firecrown/connector/mapping.py *)

Definition float_required : string := "float value is required".
Definition string_required : string := "string value is required".

(** [require_float]: [type(val) is float], no coercion of ints. *)
Definition require_float (val : pyval) : result float :=
  match val with
  | PFloat f => Ok f
  | _ => Raise (TypeError float_required)
  end.

(** [require_string] *)
Definition require_string (val : pyval) : result string :=
  match val with
  | PStr s => Ok s
  | _ => Raise (TypeError string_required)
  end.

Definition is_none (v : pyval) : bool :=
  match v with PNone => true | _ => false end.

(** The attributes of a [PyCCLCosmologyConstants] object; [None] is
    [option]'s [None]. *)
Record PyCCLCosmologyConstants : Type := {
  Omega_c : float;
  Omega_b : float;
  h : float;
  A_s : option float;
  sigma8 : option float;
  n_s : float;
  Omega_k : float;
  Omega_g : option float;
  Neff : float;
  m_nu : float;
  m_nu_type : string;
  w0 : float;
  wa : float;
  T_CMB : float
}.

Definition amplitude_msg : string :=
  "Exactly one of A_s and sigma8 must be supplied".

(** [PyCCLCosmologyConstants.__init__], its checks in source order; the
    keyword defaults [A_s=None], [sigma8=None] are passed as [PNone]. *)
Definition PyCCLCosmologyConstants_init
    (Omega_c0 Omega_b0 h0 A_s0 sigma80 n_s0 Omega_k0 Neff0 m_nu0 m_nu_type0
     w00 wa0 T_CMB0 : pyval) : result PyCCLCosmologyConstants :=
  oc <- require_float Omega_c0 ;;
  ob <- require_float Omega_b0 ;;
  hh <- require_float h0 ;;
  if negb (is_none A_s0) && negb (is_none sigma80)
  then Raise (ValueError amplitude_msg)
  else
  amp <- (if is_none sigma80
          then a <- require_float A_s0 ;; Ok (Some a, None)
          else s <- require_float sigma80 ;; Ok (None, Some s)) ;;
  ns <- require_float n_s0 ;;
  ok <- require_float Omega_k0 ;;
  ne <- require_float Neff0 ;;
  mn <- require_float m_nu0 ;;
  mt <- require_string m_nu_type0 ;;
  w <- require_float w00 ;;
  wa' <- require_float wa0 ;;
  t <- require_float T_CMB0 ;;
  Ok {| Omega_c := oc; Omega_b := ob; h := hh;
        A_s := fst amp; sigma8 := snd amp;
        n_s := ns; Omega_k := ok; Omega_g := None;
        Neff := ne; m_nu := mn; m_nu_type := mt;
        w0 := w; wa := wa'; T_CMB := t |}.

(** [from_cosmosis_camb]: the reads and arithmetic in source order, then
    the constructor; the argument [-wa] is evaluated before the call. *)
Definition from_cosmosis_camb (cosmosis_params : dict)
    : result PyCCLCosmologyConstants :=
  Omega_c0 <- getitem cosmosis_params "omega_c" ;;
  Omega_b0 <- getitem cosmosis_params "omega_b" ;;
  h0 <- getitem cosmosis_params "h0" ;;
  sigma80 <- getitem cosmosis_params "sigma_8" ;;
  n_s0 <- getitem cosmosis_params "n_s" ;;
  Omega_k0 <- getitem cosmosis_params "omega_k" ;;
  Neff0 <- py_add (dict_get cosmosis_params "delta_neff" (PFloat 0.0))
                  (PFloat 3.046) ;;
  omega_nu <- getitem cosmosis_params "omega_nu" ;;
  t1 <- py_mul omega_nu h0 ;;
  t2 <- py_mul t1 h0 ;;
  m_nu0 <- py_mul t2 (PFloat 93.14) ;;
  let m_nu_type0 := PStr "normal" in
  w00 <- getitem cosmosis_params "w" ;;
  wa0 <- getitem cosmosis_params "wa" ;;
  neg_wa <- py_neg wa0 ;;
  PyCCLCosmologyConstants_init Omega_c0 Omega_b0 h0 PNone sigma80 n_s0
    Omega_k0 Neff0 m_nu0 m_nu_type0 w00 neg_wa (PFloat 2.7255).

Definition c2_input : dict :=
  [("omega_c", PFloat 0.25); ("omega_b", PFloat 0.05); ("h0", PFloat 0.7);
   ("sigma_8", PFloat 0.8); ("n_s", PFloat 0.96); ("omega_k", PFloat 0.0);
   ("w", PFloat (-1.0)); ("wa", PFloat 0.0); ("omega_nu", PFloat 0.0)].

(** A CosmoSIS block whose dark-energy slope is [wa = -0.1]. *)
Definition c5_input : dict :=
  [("omega_c", PFloat 0.25); ("omega_b", PFloat 0.05); ("h0", PFloat 0.7);
   ("sigma_8", PFloat 0.8); ("n_s", PFloat 0.96); ("omega_k", PFloat 0.0);
   ("w", PFloat (-1.0)); ("wa", PFloat (-0.1)); ("omega_nu", PFloat 0.0);
   ("delta_neff", PFloat 0.0)].

(** The keys [from_cosmosis_camb] reads with [cosmosis_params[...]], in
    the order it reads them. *)
Definition required_keys : list string :=
  ["omega_c"; "omega_b"; "h0"; "sigma_8"; "n_s"; "omega_k"; "omega_nu";
   "w"; "wa"].

(** [c2_input] without its ["w"] key. *)
Definition c6_input : dict :=
  [("omega_c", PFloat 0.25); ("omega_b", PFloat 0.05); ("h0", PFloat 0.7);
   ("sigma_8", PFloat 0.8); ("n_s", PFloat 0.96); ("omega_k", PFloat 0.0);
   ("wa", PFloat 0.0); ("omega_nu", PFloat 0.0)].

Definition is_float (v : pyval) : bool :=
  match v with PFloat _ => true | _ => false end.

(** Modelled from the spec: the reverse direction of the [wa] mapping
    (section 4.1, "sign convention differs between frameworks; a mapper
    must apply the documented sign flip"); mapping.py has no
    [to_cosmosis_camb], so mapping a reference [wa] back into the CosmoSIS
    convention is the same sign flip. *)
Definition wa_to_cosmosis (wa_ref : float) : float := (- wa_ref)%float.

(* ------------------------------------------------------------------ *)
(** ** firecrown/parser.py: the sampled-range reduction of [parse] *)

(** One value of [data['parameters']]: a list is replaced by [val[1]]
    (raising [IndexError] when it is too short); anything else is kept. *)
Definition reduce_parameter (val : pyval) : result pyval :=
  match val with
  | PList l =>
      match nth_error l 1 with
      | Some v => Ok v
      | None => Raise (IndexError "list index out of range")
      end
  | _ => Ok val
  end.

(** The loop [for p, val in data['parameters'].items(): params[p] = ...],
    building [params] in iteration order. *)
Fixpoint parse_parameters (ps : dict) : result dict :=
  match ps with
  | [] => Ok []
  | (p, val) :: rest =>
      v <- reduce_parameter val ;;
      rest' <- parse_parameters rest ;;
      Ok ((p, v) :: rest')
  end.

(* ------------------------------------------------------------------ *)
(** ** tjpcosmo/models/twopoint/calculator.py: [convert_cosmobase_to_ccl] *)

(** The attributes of the [CosmoBase] parameter object read by
    [convert_cosmobase_to_ccl]; [sigma_8] and [a_s] are [None] when the
    key is absent ([... in cosmo_base] is false). *)
Record CosmoBase : Type := {
  cb_omega_c : float;
  cb_omega_b : float;
  cb_omega_k : float;
  cb_omega_n_rel : float;
  cb_omega_n_mass : float;
  cb_w0 : float;
  cb_wa : float;
  cb_h : float;
  cb_sigma_8 : option float;
  cb_a_s : option float;
  cb_n_s : float
}.

Inductive Amplitude : Type :=
| AmpSigma8 (s : float)
| AmpA_s (a : float).

(** The keyword arguments handed to the oracle's [ccl.Parameters]. *)
Record CCLParameters : Type := {
  ccl_Omega_c : float;
  ccl_Omega_b : float;
  ccl_Omega_k : float;
  ccl_w0 : float;
  ccl_wa : float;
  ccl_amplitude : Amplitude;
  ccl_n_s : float;
  ccl_h : float
}.

Definition massive_nu_msg : string :=
  "cosmo_base doesn't handle massive neutrinos yet".
Definition both_amplitudes_msg : string :=
  "Specifying both sigma8 and A_s: pick one".
Definition need_amplitude_msg : string :=
  "Need either sigma 8 or A_s in pyccl.".

Definition convert_cosmobase_to_ccl (cosmo_base : CosmoBase)
    : result CCLParameters :=
  let omega_c := cb_omega_c cosmo_base in
  let omega_b := cb_omega_b cosmo_base in
  let omega_k := cb_omega_k cosmo_base in
  if float_truthy (cb_omega_n_rel cosmo_base + cb_omega_n_mass cosmo_base)%float
  then Raise (ValueError massive_nu_msg)
  else
  let w := cb_w0 cosmo_base in
  let wa0 := cb_wa cosmo_base in
  let h0 := cb_h cosmo_base in
  let sigma80 := match cb_sigma_8 cosmo_base with Some s => s | None => 0.0%float end in
  let A_s0 := match cb_a_s cosmo_base with Some a => a | None => 0.0%float end in
  let n_s0 := cb_n_s cosmo_base in
  let mk amp := {| ccl_Omega_c := omega_c; ccl_Omega_b := omega_b;
                   ccl_Omega_k := omega_k; ccl_w0 := w; ccl_wa := wa0;
                   ccl_amplitude := amp; ccl_n_s := n_s0; ccl_h := h0 |} in
  if float_truthy sigma80 && float_truthy A_s0
  then Raise (ValueError both_amplitudes_msg)
  else if float_truthy sigma80 then Ok (mk (AmpSigma8 sigma80))
  else if float_truthy A_s0 then Ok (mk (AmpA_s A_s0))
  else Raise (ValueError need_amplitude_msg).

(** [cosmo_base] with its ["sigma_8"] entry replaced by [o]. *)
Definition with_sigma_8 (cb : CosmoBase) (o : option float) : CosmoBase :=
  {| cb_omega_c := cb_omega_c cb; cb_omega_b := cb_omega_b cb;
     cb_omega_k := cb_omega_k cb; cb_omega_n_rel := cb_omega_n_rel cb;
     cb_omega_n_mass := cb_omega_n_mass cb; cb_w0 := cb_w0 cb;
     cb_wa := cb_wa cb; cb_h := cb_h cb; cb_sigma_8 := o;
     cb_a_s := cb_a_s cb; cb_n_s := cb_n_s cb |}.

(** [cosmo_base] with its ["a_s"] entry replaced by [o]. *)
Definition with_a_s (cb : CosmoBase) (o : option float) : CosmoBase :=
  {| cb_omega_c := cb_omega_c cb; cb_omega_b := cb_omega_b cb;
     cb_omega_k := cb_omega_k cb; cb_omega_n_rel := cb_omega_n_rel cb;
     cb_omega_n_mass := cb_omega_n_mass cb; cb_w0 := cb_w0 cb;
     cb_wa := cb_wa cb; cb_h := cb_h cb; cb_sigma_8 := cb_sigma_8 cb;
     cb_a_s := o; cb_n_s := cb_n_s cb |}.

(** A parameter set with [sigma_8 = 0.0], no [a_s] and no neutrinos. *)
Definition c10_input : CosmoBase :=
  {| cb_omega_c := 0.25; cb_omega_b := 0.05; cb_omega_k := 0.0;
     cb_omega_n_rel := 0.0; cb_omega_n_mass := 0.0; cb_w0 := -1.0;
     cb_wa := 0.0; cb_h := 0.7; cb_sigma_8 := Some 0.0%float;
     cb_a_s := None; cb_n_s := 0.96 |}.

(* ------------------------------------------------------------------ *)
(** ** tjpcosmo/models/twopoint/calculator.py: [setup_sources] *)

(** The class a systematic is an instance of, which decides its bucket. *)
Inductive SysKind : Type :=
| SourceSystematic
| OutputSystematic
| CosmologySystematic
| PlainSystematic.

Record Systematic : Type := { sys_kind : SysKind }.

(** [config['sources'][name]]: its [type] and its optional
    [systematics] list. *)
Record SourceInfo : Type := {
  src_type : string;
  src_systematics : option (list string)
}.

(** [source_info.get('systematics', [])] *)
Definition source_sys_names (source_info : SourceInfo) : list string :=
  match src_systematics source_info with
  | Some l => l
  | None => []
  end.

Definition unresolved_msg (sys_name name : string) : string :=
  "Systematic with name " ++ sys_name ++ " was specified for source " ++ name
  ++ " but not defined in parameter file systematics section".

Definition unused_msg (sys_name : string) : string :=
  "Systematic with name " ++ sys_name
  ++ " was specified in param file but never used".

Definition is_source_systematic (s : Systematic) : bool :=
  match sys_kind s with SourceSystematic => true | _ => false end.

(** [self.source_systematics]: the table's entries that are
    [SourceSystematic]s, in table order. *)
Definition source_systematics (systematics : list (string * Systematic))
    : list (string * Systematic) :=
  filter (fun e => is_source_systematic (snd e)) systematics.

Definition no_metadata_msg : string :=
  "'TwoPointTheoryCalculator' object has no attribute 'metadata'".

Section SetupSources.

(** [make_source] lives in [tjpcosmo.models.sources], outside the
    analysed files: an arbitrary, possibly raising, function of the
    source's name, its type and the calculator's metadata. *)
Variables Source Metadata : Type.
Variable make_source : string -> string -> Metadata -> outcome Source.

(** [self.metadata]: [__init__] assigns it only after [setup_sources]
    returns, so it is set only if the base class [TheoryCalculator]
    (outside the analysed files) set it; [None] stands for unset. *)
Definition get_metadata (self_metadata : option Metadata) : outcome Metadata :=
  match self_metadata with
  | Some m => Done m
  | None => Fail (AttributeError no_metadata_msg)
  end.

(** A built source with the systematics appended to [source.systematics]. *)
Record BuiltSource : Type := {
  bs_source : Source;
  bs_systematics : list Systematic
}.

(** The inner loop over [sys_names] for source [name]; [used] is
    [used_systematics]. *)
Fixpoint attach_systematics (systematics : list (string * Systematic))
    (name : string) (sys_names : list string)
    (attached : list Systematic) (used : list string)
    : outcome (list Systematic * list string) :=
  match sys_names with
  | [] => Done (attached, used)
  | sys_name :: rest =>
      match dict_lookup systematics sys_name with
      | None => Fail (Exn (ValueError (unresolved_msg sys_name name)))
      | Some sys =>
          attach_systematics systematics name rest
            (app attached [sys]) (sys_name :: used)
      end
  end.

(** The outer loop over [config['sources'].items()]: each source is made
    (reading [self.metadata]) before its systematics are resolved. *)
Fixpoint build_sources (systematics : list (string * Systematic))
    (self_metadata : option Metadata)
    (info : list (string * SourceInfo)) (used : list string)
    : outcome (list BuiltSource * list string) :=
  match info with
  | [] => Done ([], used)
  | (name, source_info) :: rest =>
      let stype := src_type source_info in
      metadata <-? get_metadata self_metadata ;;
      source <-? make_source name stype metadata ;;
      r <-? attach_systematics systematics name (source_sys_names source_info)
              [] used ;;
      let '(attached, used') := r in
      r' <-? build_sources systematics self_metadata rest used' ;;
      let '(sources, used'') := r' in
      Done ({| bs_source := source; bs_systematics := attached |} :: sources,
            used'')
  end.

(** The final loop: the first source systematic not in [used]. *)
Fixpoint check_used (names : list string) (used : list string) : outcome unit :=
  match names with
  | [] => Done tt
  | sys_name :: rest =>
      if existsb (String.eqb sys_name) used
      then check_used rest used
      else Fail (Exn (ValueError (unused_msg sys_name)))
  end.

(** [TwoPointTheoryCalculator.setup_sources]: returns [self.sources]. *)
Definition setup_sources (systematics : list (string * Systematic))
    (self_metadata : option Metadata)
    (info : list (string * SourceInfo)) : outcome (list BuiltSource) :=
  r <-? build_sources systematics self_metadata info [] ;;
  let '(sources, used) := r in
  _ <-? check_used (map fst (source_systematics systematics)) used ;;
  Done sources.

End SetupSources.

(** Systematic [s] is named in some source's [systematics] list. *)
Definition referenced (info : list (string * SourceInfo)) (s : string) : Prop :=
  exists n si, In (n, si) info /\ In s (source_sys_names si).

(** A table with one source systematic ["A"], and one source that names
    the undefined systematic ["B"]. *)
Definition c3_systematics : list (string * Systematic) :=
  [("A", {| sys_kind := SourceSystematic |})].

Definition c3_sources : list (string * SourceInfo) :=
  [("s1", {| src_type := "lss"; src_systematics := Some ["B"] |})].

(* ------------------------------------------------------------------ *)
(** ** firecrown/likelihood/gauss_family/student_t.py *)

Section StudentTLikelihood.

(** [Statistic], the cosmology handle, [GaussFamily.compute_chisq] and
    [np.log] come from outside the analysed files. [nu] and [chi2] are
    binary64 values ([chi2] a numpy float64). *)
Variable Statistic : Type.
Variable Cosmology : Type.
Variable compute_chisq : list Statistic -> Cosmology -> dict -> float.
Variable np_log : float -> float.

Record StudentT : Type := {
  statistics : list Statistic;
  nu : float
}.

Definition super_init_msg : string :=
  "descriptor '__init__' requires a 'super' object but received a 'list'".

(** [super.__init__(statistics)]: the [__init__] slot of the built-in type
    [super], called unbound with [statistics] as its receiver; a list is
    not a [super] instance, so the slot raises. *)
Definition super_slot_init (statistics : list Statistic) : result unit :=
  Raise (TypeError super_init_msg).

(** [StudentT.__init__] *)
Definition StudentT_init (statistics0 : list Statistic) (nu0 : float)
    : result StudentT :=
  _ <- super_slot_init statistics0 ;;
  Ok {| statistics := statistics0; nu := nu0 |}.

(** [StudentT.compute_loglike] *)
Definition compute_loglike (self : StudentT) (cosmo : Cosmology)
    (params : dict) : float :=
  let chi2 := compute_chisq (statistics self) cosmo params in
  (-0.5 * nu self * np_log (1.0 + chi2 / (nu self - 1.0)))%float.

End StudentTLikelihood.

(* ------------------------------------------------------------------ *)
(** ** Further code of the same files *)

(** *** mapping.py: [redshift_to_scale_factor] *)

(** [np.flip(1.0 / (1.0 + z))] on the 1-d redshift array and
    [np.flipud(p_k)] on the power spectrum, whose first axis runs over
    redshift (its rows are kept abstract). *)
Definition redshift_to_scale_factor {Row : Type} (z : list float)
    (p_k : list Row) : list float * list Row :=
  let scale := rev (map (fun zi => (1.0 / (1.0 + zi))%float) z) in
  let p_k_out := rev p_k in
  (scale, p_k_out).

(** *** mapping.py: [PyCCLCosmologyConstants.asdict] *)

Definition opt_float (o : option float) : pyval :=
  match o with
  | Some f => PFloat f
  | None => PNone
  end.

Definition asdict (self : PyCCLCosmologyConstants) : dict :=
  [("Omega_c", PFloat (Omega_c self)); ("Omega_b", PFloat (Omega_b self));
   ("h", PFloat (h self)); ("A_s", opt_float (A_s self));
   ("sigma8", opt_float (sigma8 self)); ("n_s", PFloat (n_s self));
   ("Omega_k", PFloat (Omega_k self)); ("Omega_g", opt_float (Omega_g self));
   ("Neff", PFloat (Neff self)); ("m_nu", PFloat (m_nu self));
   ("m_nu_type", PStr (m_nu_type self)); ("w0", PFloat (w0 self));
   ("wa", PFloat (wa self)); ("T_CMB", PFloat (T_CMB self))].

(** The keyword-only parameters of [PyCCLCosmologyConstants.__init__];
    all but [A_s] and [sigma8] are required. *)
Definition init_keywords : list string :=
  ["Omega_c"; "Omega_b"; "h"; "A_s"; "sigma8"; "n_s"; "Omega_k"; "Neff";
   "m_nu"; "m_nu_type"; "w0"; "wa"; "T_CMB"].

Definition init_required : list string :=
  ["Omega_c"; "Omega_b"; "h"; "n_s"; "Omega_k"; "Neff"; "m_nu";
   "m_nu_type"; "w0"; "wa"; "T_CMB"].

Definition unexpected_kw_msg (k : string) : string :=
  String.append "__init__() got an unexpected keyword argument " k.
Definition missing_kw_msg : string :=
  "__init__() missing required keyword-only argument".

Definition mem (k : string) (ks : list string) : bool :=
  existsb (String.eqb k) ks.

(** [PyCCLCosmologyConstants( **d)]: Python's argument binding first
    refuses a key that is no parameter, then a missing required
    parameter; an absent [A_s] or [sigma8] takes its default [None]. *)
Definition init_from_kwargs (d : dict) : result PyCCLCosmologyConstants :=
  match find (fun e => negb (mem (fst e) init_keywords)) d with
  | Some (k, _) => Raise (TypeError (unexpected_kw_msg k))
  | None =>
  if forallb (fun k => mem k (map fst d)) init_required then
  PyCCLCosmologyConstants_init (dict_get d "Omega_c" PNone)
    (dict_get d "Omega_b" PNone) (dict_get d "h" PNone)
    (dict_get d "A_s" PNone) (dict_get d "sigma8" PNone)
    (dict_get d "n_s" PNone) (dict_get d "Omega_k" PNone)
    (dict_get d "Neff" PNone) (dict_get d "m_nu" PNone)
    (dict_get d "m_nu_type" PNone) (dict_get d "w0" PNone)
    (dict_get d "wa" PNone) (dict_get d "T_CMB" PNone)
  else Raise (TypeError missing_kw_msg)
  end.

(** [asdict()] without its ["Omega_g"] entry, which the constructor does
    not accept as a keyword. *)
Definition asdict_kwargs (self : PyCCLCosmologyConstants) : dict :=
  filter (fun e => negb (String.eqb (fst e) "Omega_g")) (asdict self).

(** *** parser.py: [update_dict] *)

(** A parsed configuration value: a mapping, or any other value. *)
Inductive cfg : Type :=
| CLeaf (v : pyval)
| CMap (m : list (string * cfg)).

(** [d.get(k, {})] on a mapping. *)
Definition cfg_get (dm : list (string * cfg)) (k : string) : cfg :=
  match dict_lookup dm k with
  | Some c => c
  | None => CMap []
  end.

(** [d[k] = v] on a dict: an existing key keeps its place, a new key is
    appended. *)
Fixpoint dict_set {V : Type} (d : list (string * V)) (k : string) (v : V)
    : list (string * V) :=
  match d with
  | [] => [(k, v)]
  | (k', v') :: rest =>
      if String.eqb k k' then (k', v) :: rest else (k', v') :: dict_set rest k v
  end.

Definition no_get_msg : string := "object has no attribute 'get'".
Definition no_items_msg : string := "object has no attribute 'items'".
Definition no_setitem_msg : string :=
  "object does not support item assignment".

(** The loop [for k, v in u.items(): ...] of [update_dict], with the
    recursive call [rec]. A non-mapping [d] has no [.get] (raised before
    the recursive call) and does not take [d[k] = v]. *)
Definition update_items (rec : cfg -> cfg -> outcome cfg)
    : cfg -> list (string * cfg) -> outcome cfg :=
  fix loop (d : cfg) (items : list (string * cfg)) : outcome cfg :=
    match items with
    | [] => Done d
    | (k, v) :: rest =>
        match v, d with
        | CMap _, CMap dm =>
            sub <-? rec (cfg_get dm k) v ;;
            loop (CMap (dict_set dm k sub)) rest
        | CMap _, CLeaf _ => Fail (AttributeError no_get_msg)
        | CLeaf _, CMap dm => loop (CMap (dict_set dm k v)) rest
        | CLeaf _, CLeaf _ => Fail (Exn (TypeError no_setitem_msg))
        end
    end.

(** [update_dict(d, u)]: the recursive merge of [parse]. *)
Fixpoint update_dict (d : cfg) (u : cfg) {struct u} : outcome cfg :=
  match u with
  | CMap um => update_items update_dict d um
  | CLeaf _ => Fail (AttributeError no_items_msg)
  end.

(** Distinct keys, as in every Python dict. *)
Fixpoint keys_unique (ks : list string) : bool :=
  match ks with
  | [] => true
  | k :: rest => negb (mem k rest) && keys_unique rest
  end.

(** Every mapping of a configuration value, at any depth, has distinct
    keys: the configurations [parse] builds from YAML and dicts. *)
Fixpoint cfg_keys_unique (c : cfg) : bool :=
  match c with
  | CLeaf _ => true
  | CMap m =>
      keys_unique (map fst m) &&
      (fix all (m : list (string * cfg)) : bool :=
         match m with
         | [] => true
         | (_, v) :: rest => cfg_keys_unique v && all rest
         end) m
  end.

(** *** calculator.py: [update_systematics] *)

Definition no_update_msg : string := "'str' object has no attribute 'update'".

(** [sys.update(parameters)] where [sys] is a [str]. *)
Definition str_update (sys : string) (parameters : dict) : outcome unit :=
  Fail (AttributeError no_update_msg).

(** [for sys in self.systematics: sys.update(parameters)]: iterating a
    dict yields its keys, the systematics' names. *)
Fixpoint update_systematics (systematics : list (string * Systematic))
    (parameters : dict) : outcome unit :=
  match systematics with
  | [] => Done tt
  | (sys, _) :: rest =>
      _ <-? str_update sys parameters ;;
      update_systematics rest parameters
  end.

(** *** calculator.py: [TwoPointTheoryCalculator.run] *)

Definition something_msg : string := "name 'something' is not defined".

Section Run.

(** [ccl.Cosmology] is the external oracle; [TwoPointTheoryResults] is
    never reached. *)
Variable Cosmo : Type.
Variable ccl_Cosmology : CCLParameters -> outcome Cosmo.
Variable TheoryResults : Type.

(** [make_tracers]: a loop of [pass], returning [None]. *)
Definition make_tracers (sources : list unit) (cosmo : Cosmo) : unit := tt.

(** [run]: convert, build the cosmology, build the tracers, then loop over
    the undefined global [something]. *)
Definition run (sources : list unit) (parameters : CosmoBase)
    : outcome TheoryResults :=
  params <-? lift (convert_cosmobase_to_ccl parameters) ;;
  cosmo <-? ccl_Cosmology params ;;
  let tracers := make_tracers sources cosmo in
  Fail (NameError something_msg).

End Run.

(** *** cosmosis_entry_point.py: [execute] *)

(** ASCII lower-casing, as CosmoSIS applies to section and value names. *)
Definition lower_ascii (c : Ascii.ascii) : Ascii.ascii :=
  let n := Ascii.nat_of_ascii c in
  if Nat.leb 65 n && Nat.leb n 90 then Ascii.ascii_of_nat (n + 32) else c.

Fixpoint lower (s : string) : string :=
  match s with
  | EmptyString => EmptyString
  | String c rest => String (lower_ascii c) (lower rest)
  end.

(** Names of a CosmoSIS [DataBlock] are case-insensitive. *)
Definition key_eqb (a b : string) : bool := String.eqb (lower a) (lower b).

(** A CosmoSIS [DataBlock]: values keyed by (section, name). *)
Definition Block := list ((string * string) * pyval).

Fixpoint block_lookup (b : Block) (sec name : string) : option pyval :=
  match b with
  | [] => None
  | ((s, n), v) :: rest =>
      if key_eqb sec s && key_eqb name n then Some v
      else block_lookup rest sec name
  end.

(** [block[sec, name] = v] *)
Fixpoint block_set (b : Block) (sec name : string) (v : pyval) : Block :=
  match b with
  | [] => [((sec, name), v)]
  | ((s, n), v') :: rest =>
      if key_eqb sec s && key_eqb name n then ((s, n), v) :: rest
      else ((s, n), v') :: block_set rest sec name v
  end.

Section Execute.

(** Everything [execute] calls lives outside the analysed files:
    [block_to_parameters], the [convert_cosmobase_to_ccl] imported from
    [tjpcosmo.analyses], [ccl.Cosmology], [Analysis.run] and
    [to_cosmosis_block] (which writes into the block). *)
Variables Consistency ParameterSet Params Cosmology Analysis TheoryResult : Type.
Variable block_to_parameters : Block -> Consistency -> outcome ParameterSet.
Variable convert : ParameterSet -> outcome Params.
Variable ccl_cosmology : Params -> outcome Cosmology.
Variable analysis_name : Analysis -> string.
Variable analysis_run :
  Analysis -> Cosmology -> ParameterSet -> outcome (float * TheoryResult).
Variable to_cosmosis_block : TheoryResult -> Block -> outcome Block.

(** The loop [for analysis in analyses: ...], threading the block and
    [total_like]. *)
Fixpoint run_analyses (analyses : list Analysis) (cosmo : Cosmology)
    (parameterSet : ParameterSet) (block : Block) (total_like : float)
    : outcome (Block * float) :=
  match analyses with
  | [] => Done (block, total_like)
  | analysis :: rest =>
      r <-? analysis_run analysis cosmo parameterSet ;;
      let '(like, theory_result) := r in
      block1 <-? to_cosmosis_block theory_result block ;;
      let block2 := block_set block1 "likelihoods"
                      (analysis_name analysis ++ "_like") (PFloat like) in
      run_analyses rest cosmo parameterSet block2 (total_like + like)%float
  end.

(** [execute(block, config)]: returns [0] with the updated block. *)
Definition execute (block : Block)
    (config : list Analysis * Consistency) : outcome (Z * Block) :=
  let '(analyses, consistency) := config in
  parameterSet <-? block_to_parameters block consistency ;;
  params <-? convert parameterSet ;;
  cosmo <-? ccl_cosmology params ;;
  r <-? run_analyses analyses cosmo parameterSet block 0.0 ;;
  let '(block', total_like) := r in
  Done (0%Z, block_set block' "likelihoods" "total_like" (PFloat total_like)).

End Execute.

(* ------------------------------------------------------------------ *)
(** * Properties *)

(** ** General facts about the embedding *)

Lemma bind_Ok {A B : Type} (c : result A) (k : A -> result B) (b : B) :
  bind c k = Ok b -> exists a, c = Ok a /\ k a = Ok b.
Proof. destruct c as [a|e]; cbn; [eauto | discriminate]. Qed.

(** Peel every [bind] of a hypothesis [... = Ok _] into its steps. *)
Ltac peel_binds :=
  repeat match goal with
  | H : bind _ _ = Ok _ |- _ =>
      let E := fresh "E" in
      apply bind_Ok in H; destruct H as [? [E H]]
  end.

(** The sign flip of binary64 is an involution (including on zeros,
    infinities and NaN). *)
Lemma float_opp_involutive (x : float) : (- - x)%float = x.
Proof.
  apply FloatAxioms.Prim2SF_inj.
  rewrite !FloatAxioms.opp_spec.
  destruct (FloatOps.Prim2SF x); cbn; rewrite ?negb_involutive; reflexivity.
Qed.

Lemma require_float_Ok (v : pyval) (f : float) :
  require_float v = Ok f -> v = PFloat f.
Proof. destruct v; cbn; congruence. Qed.

(** What a successful construction stores: the numeric arguments were
    floats and land unchanged in their attributes, and exactly one of
    [A_s], [sigma8] is set. *)
Lemma PyCCLCosmologyConstants_init_Ok
    Omega_c0 Omega_b0 h0 A_s0 sigma80 n_s0 Omega_k0 Neff0 m_nu0 m_nu_type0
    w00 wa0 T_CMB0 r :
  PyCCLCosmologyConstants_init Omega_c0 Omega_b0 h0 A_s0 sigma80 n_s0
    Omega_k0 Neff0 m_nu0 m_nu_type0 w00 wa0 T_CMB0 = Ok r ->
  Neff0 = PFloat (Neff r) /\ wa0 = PFloat (wa r) /\ T_CMB0 = PFloat (T_CMB r)
  /\ m_nu0 = PFloat (m_nu r) /\ (A_s r = None <-> sigma8 r <> None).
Proof.
  unfold PyCCLCosmologyConstants_init. intro H.
  peel_binds.
  destruct (negb (is_none A_s0) && negb (is_none sigma80)); [discriminate|].
  peel_binds.
  injection H as <-. cbn.
  repeat match goal with
         | E : require_float _ = Ok _ |- _ => apply require_float_Ok in E
         end.
  subst. refine (conj eq_refl (conj eq_refl (conj eq_refl (conj eq_refl _)))).
  destruct (is_none sigma80); peel_binds;
    match goal with H : Ok _ = Ok _ |- _ => injection H as <- end;
    cbn; split; congruence.
Qed.

(** ** Mapping: [PyCCLCosmologyConstants] and [from_cosmosis_camb] *)

(** C1 (as amended). Supplying both [A_s] and [sigma8] raises
    [ValueError("Exactly one of A_s and sigma8 must be supplied")] unless
    [Omega_c], [Omega_b] or [h] already failed its float check (then it is
    that [TypeError]); supplying neither raises
    [TypeError("float value is required")] from [require_float(A_s)];
    every constructed record has exactly one of [A_s], [sigma8] set. *)
Theorem C1_amplitude_exclusive
    Omega_c0 Omega_b0 h0 A_s0 sigma80 n_s0 Omega_k0 Neff0 m_nu0 m_nu_type0
    w00 wa0 T_CMB0 :
  let res := PyCCLCosmologyConstants_init Omega_c0 Omega_b0 h0 A_s0 sigma80
               n_s0 Omega_k0 Neff0 m_nu0 m_nu_type0 w00 wa0 T_CMB0 in
  (A_s0 <> PNone -> sigma80 <> PNone ->
     res = if is_float Omega_c0 && is_float Omega_b0 && is_float h0
           then Raise (ValueError amplitude_msg)
           else Raise (TypeError float_required)) /\
  (A_s0 = PNone -> sigma80 = PNone -> res = Raise (TypeError float_required)) /\
  (forall r, res = Ok r -> (A_s r = None <-> sigma8 r <> None)).
Proof.
  cbv zeta. split; [|split].
  - intros HA HS.
    destruct Omega_c0; try reflexivity; destruct Omega_b0; try reflexivity;
      destruct h0; try reflexivity.
    destruct A_s0; [congruence| | | |]; destruct sigma80; try congruence;
      reflexivity.
  - intros -> ->.
    destruct Omega_c0; try reflexivity; destruct Omega_b0; try reflexivity;
      destruct h0; reflexivity.
  - intros r H. apply PyCCLCosmologyConstants_init_Ok in H. tauto.
Qed.

Lemma C1_amplitude_exclusive_witness :
  PyCCLCosmologyConstants_init (PFloat 0.25) (PFloat 0.05) (PFloat 0.7)
    (PFloat 2.1e-9) (PFloat 0.8) (PFloat 0.96) (PFloat 0.0) (PFloat 3.046)
    (PFloat 0.0) (PStr "normal") (PFloat (-1.0)) (PFloat 0.0) (PFloat 2.7255)
  = Raise (ValueError amplitude_msg).
Proof.
  apply (proj1 (C1_amplitude_exclusive (PFloat 0.25) (PFloat 0.05) (PFloat 0.7)
    (PFloat 2.1e-9) (PFloat 0.8) (PFloat 0.96) (PFloat 0.0) (PFloat 3.046)
    (PFloat 0.0) (PStr "normal") (PFloat (-1.0)) (PFloat 0.0) (PFloat 2.7255)));
    discriminate.
Defined.

(** C1, counterexample: with neither amplitude supplied (all other
    arguments well typed) construction raises the generic
    [TypeError("float value is required")], not the amplitude error. *)
Lemma C1_neither_counterexample :
  PyCCLCosmologyConstants_init (PFloat 0.25) (PFloat 0.05) (PFloat 0.7)
    PNone PNone (PFloat 0.96) (PFloat 0.0) (PFloat 3.046) (PFloat 0.0)
    (PStr "normal") (PFloat (-1.0)) (PFloat 0.0) (PFloat 2.7255)
  = Raise (TypeError float_required) /\
  PyCCLCosmologyConstants_init (PFloat 0.25) (PFloat 0.05) (PFloat 0.7)
    PNone PNone (PFloat 0.96) (PFloat 0.0) (PFloat 3.046) (PFloat 0.0)
    (PStr "normal") (PFloat (-1.0)) (PFloat 0.0) (PFloat 2.7255)
  <> Raise (ValueError amplitude_msg).
Proof. split; [reflexivity | discriminate]. Qed.

(** C2. On the CosmoSIS block [{omega_c: 0.25, omega_b: 0.05, h0: 0.7,
    sigma_8: 0.8, n_s: 0.96, omega_k: 0.0, w: -1.0, wa: 0.0,
    omega_nu: 0.0}], [from_cosmosis_camb] returns a record with
    [Neff = 3.046], [m_nu = 0.0], [wa == 0.0] (the stored value is [-0.0],
    equal to [0.0] under Python's [==]) and [T_CMB = 2.7255]. *)
Theorem C2_cosmosis_camb_scenario :
  exists r, from_cosmosis_camb c2_input = Ok r /\
    Neff r = 3.046%float /\ m_nu r = 0.0%float /\
    PrimFloat.eqb (wa r) 0.0%float = true /\ wa r = (- 0.0)%float /\
    T_CMB r = 2.7255%float.
Proof.
  eexists. split; [reflexivity|].
  vm_compute. repeat split; reflexivity.
Qed.

(** What a successful [from_cosmosis_camb] read and computed. *)
Lemma from_cosmosis_camb_Ok (params : dict) (r : PyCCLCosmologyConstants) :
  from_cosmosis_camb params = Ok r ->
  py_add (dict_get params "delta_neff" (PFloat 0.0)) (PFloat 3.046)
    = Ok (PFloat (Neff r)) /\
  exists wa0, getitem params "wa" = Ok wa0 /\ py_neg wa0 = Ok (PFloat (wa r)).
Proof.
  unfold from_cosmosis_camb. intro H. peel_binds.
  apply PyCCLCosmologyConstants_init_Ok in H.
  destruct H as [-> [-> _]]. eauto.
Qed.

(** A construction with [A_s] left to its default: [sigma8] must then be
    a float and is stored, [A_s] stays [None]. *)
Lemma init_sigma8_only
    Omega_c0 Omega_b0 h0 sigma80 n_s0 Omega_k0 Neff0 m_nu0 m_nu_type0
    w00 wa0 T_CMB0 r :
  PyCCLCosmologyConstants_init Omega_c0 Omega_b0 h0 PNone sigma80 n_s0
    Omega_k0 Neff0 m_nu0 m_nu_type0 w00 wa0 T_CMB0 = Ok r ->
  A_s r = None /\ (exists s, sigma80 = PFloat s /\ sigma8 r = Some s) /\
  h0 = PFloat (h r) /\ m_nu_type0 = PStr (m_nu_type r) /\
  m_nu0 = PFloat (m_nu r) /\ T_CMB0 = PFloat (T_CMB r) /\ Omega_g r = None.
Proof.
  unfold PyCCLCosmologyConstants_init. intro H.
  peel_binds. cbn in H.
  destruct sigma80 as [| | | |]; cbn in H; try discriminate;
    peel_binds; injection H as <-; cbn;
    repeat match goal with
           | E : require_float _ = Ok _ |- _ => apply require_float_Ok in E
           end;
    repeat match goal with
           | E : require_string ?v = Ok _ |- _ =>
               destruct v; cbn in E; try discriminate; injection E as <-
           end;
    cbn in *; subst; repeat split; eauto;
    match goal with
    | E : Ok _ = Ok _ |- _ => injection E as <-; eauto
    end.
Qed.

Lemma py_neg_float (v : pyval) (f : float) :
  py_neg v = Ok (PFloat f) -> v = PFloat (- f)%float.
Proof.
  destruct v; cbn; try discriminate.
  intro H. injection H as <-. rewrite float_opp_involutive. reflexivity.
Qed.

(** C4. For every block [from_cosmosis_camb] accepts, [Neff] is the
    Python sum [cosmosis_params.get("delta_neff", 0.0) + 3.046]; in
    particular a [delta_neff] of [0.0] gives exactly [Neff = 3.046]. *)
Theorem C4_neff_baseline (params : dict) (r : PyCCLCosmologyConstants) :
  from_cosmosis_camb params = Ok r ->
  py_add (dict_get params "delta_neff" (PFloat 0.0)) (PFloat 3.046)
    = Ok (PFloat (Neff r)) /\
  (dict_get params "delta_neff" (PFloat 0.0) = PFloat 0.0 ->
   Neff r = 3.046%float).
Proof.
  intro H. apply from_cosmosis_camb_Ok in H. destruct H as [HN _].
  split; [exact HN|].
  intro Hd. rewrite Hd in HN. vm_compute in HN.
  injection HN as HN. symmetry. exact HN.
Qed.

Lemma C4_neff_baseline_witness :
  exists r, from_cosmosis_camb c5_input = Ok r /\ Neff r = 3.046%float.
Proof.
  eexists. split; [reflexivity|].
  apply (proj2 (C4_neff_baseline c5_input _ eq_refl)). reflexivity.
Defined.

(** C5. For every block [from_cosmosis_camb] accepts, the raw ["wa"] is a
    float [w] and the record stores [-w]; flipping the sign back into the
    CosmoSIS convention recovers [w]. *)
Theorem C5_wa_sign_flip (params : dict) (r : PyCCLCosmologyConstants) :
  from_cosmosis_camb params = Ok r ->
  exists w, dict_lookup params "wa" = Some (PFloat w) /\
    wa r = (- w)%float /\ wa_to_cosmosis (wa r) = w.
Proof.
  intro H. apply from_cosmosis_camb_Ok in H.
  destruct H as [_ [wa0 [Hget Hneg]]].
  apply py_neg_float in Hneg. subst wa0.
  exists (- wa r)%float. unfold getitem in Hget.
  destruct (dict_lookup params "wa"); [|discriminate].
  injection Hget as ->. unfold wa_to_cosmosis.
  rewrite float_opp_involutive. auto.
Qed.

(** The framework value [wa = -0.1] becomes the reference value [0.1]. *)
Lemma C5_wa_sign_flip_witness :
  exists r, from_cosmosis_camb c5_input = Ok r /\ wa r = 0.1%float /\
    exists w, dict_lookup c5_input "wa" = Some (PFloat w) /\
      wa r = (- w)%float /\ wa_to_cosmosis (wa r) = w.
Proof.
  eexists. split; [reflexivity|]. split; [vm_compute; reflexivity|].
  apply (C5_wa_sign_flip c5_input). reflexivity.
Defined.

Lemma all_floats_lookup (d : dict) :
  forallb (fun e => is_float (snd e)) d = true ->
  forall k v, dict_lookup d k = Some v -> is_float v = true.
Proof.
  induction d as [|[k' v'] d IH]; cbn; [discriminate|].
  intros Hall k v. apply andb_prop in Hall. destruct Hall as [H1 H2].
  destruct (String.eqb k k'); [intro E; injection E as <-; exact H1 | exact (IH H2 k v)].
Qed.

(** One read of [from_cosmosis_camb] on a block of floats: a missing key
    raises [KeyError] at once, a present one is a float. *)
Ltac read_key Hfl k :=
  let E := fresh "E" in
  let f := fresh "f" in
  destruct (Hfl k) as [E | [f E]]; rewrite E; cbn [bind py_add py_mul py_neg];
  [ left; exists k; split; [cbn; tauto | split; [exact E | reflexivity]] | ].

(** On a block whose values are all floats, [from_cosmosis_camb] either
    raises [KeyError] for a missing required key or succeeds. *)
Lemma from_cosmosis_camb_float_cases (params : dict) :
  (forall k v, dict_lookup params k = Some v -> is_float v = true) ->
  (exists k, In k required_keys /\ dict_lookup params k = None /\
     from_cosmosis_camb params = Raise (KeyError k)) \/
  ((forall k, In k required_keys -> dict_lookup params k <> None) /\
   exists r, from_cosmosis_camb params = Ok r).
Proof.
  intro Hf.
  assert (Hfl : forall k, dict_lookup params k = None \/
                          exists f, dict_lookup params k = Some (PFloat f)).
  { intro k. destruct (dict_lookup params k) as [v|] eqn:E; [right | left; reflexivity].
    specialize (Hf k v E). destruct v; try discriminate. eauto. }
  unfold from_cosmosis_camb, getitem, dict_get.
  read_key Hfl "omega_c". read_key Hfl "omega_b". read_key Hfl "h0".
  read_key Hfl "sigma_8". read_key Hfl "n_s". read_key Hfl "omega_k".
  destruct (Hfl "delta_neff") as [Ed | [fd Ed]]; rewrite Ed;
    cbn [bind py_add py_mul py_neg];
  read_key Hfl "omega_nu"; read_key Hfl "w"; read_key Hfl "wa";
  (right; split;
   [ intros k Hin Hk; cbn in Hin;
     repeat (destruct Hin as [<- | Hin]; [congruence|]); contradiction
   | eexists; reflexivity ]).
Qed.

(** C6 (as amended). On a block whose values are floats, each of the nine
    keys omega_c, omega_b, h0, sigma_8, n_s, omega_k, omega_nu, w, wa is
    required: when one is missing, [from_cosmosis_camb] raises [KeyError]
    naming a missing one, and with all present it succeeds.  [delta_neff]
    is optional: when it is absent [0.0] is silently used, so
    [Neff = 3.046].  Every success stores the constants [T_CMB = 2.7255]
    and [m_nu_type = "normal"]. *)
Theorem C6_required_keys (params : dict) :
  (forall k v, dict_lookup params k = Some v -> is_float v = true) ->
  ((exists k, In k required_keys /\ dict_lookup params k = None) ->
   exists k, In k required_keys /\ dict_lookup params k = None /\
     from_cosmosis_camb params = Raise (KeyError k)) /\
  ((forall k, In k required_keys -> dict_lookup params k <> None) ->
   exists r, from_cosmosis_camb params = Ok r) /\
  (forall r, dict_lookup params "delta_neff" = None ->
   from_cosmosis_camb params = Ok r -> Neff r = 3.046%float) /\
  (forall r, from_cosmosis_camb params = Ok r ->
   T_CMB r = 2.7255%float /\ m_nu_type r = "normal").
Proof.
  intro Hf. split; [|split; [|split]].
  - intros [k [Hin Hk]].
    destruct (from_cosmosis_camb_float_cases params Hf) as [Hm | [Hall _]];
      [exact Hm | exfalso; exact (Hall k Hin Hk)].
  - intro Hall.
    destruct (from_cosmosis_camb_float_cases params Hf)
      as [[k [Hin [Hk _]]] | [_ Hok]]; [exfalso; exact (Hall k Hin Hk) | exact Hok].
  - intros r Hd Hr.
    apply from_cosmosis_camb_Ok in Hr. destruct Hr as [HN _].
    unfold dict_get in HN. rewrite Hd in HN. vm_compute in HN.
    injection HN as HN. symmetry. exact HN.
  - intros r Hr. unfold from_cosmosis_camb in Hr. peel_binds.
    destruct (init_sigma8_only _ _ _ _ _ _ _ _ _ _ _ _ _ Hr)
      as [_ [_ [_ [Ht [_ [HT _]]]]]].
    injection Ht as Ht. injection HT as HT. split; congruence.
Qed.

Lemma C6_required_keys_witness :
  (exists r, from_cosmosis_camb c2_input = Ok r) /\
  (exists k, In k required_keys /\ dict_lookup c6_input k = None /\
     from_cosmosis_camb c6_input = Raise (KeyError k)).
Proof.
  split.
  - apply (C6_required_keys c2_input (all_floats_lookup c2_input eq_refl)).
    intros k Hin. cbn in Hin.
    repeat (destruct Hin as [<- | Hin]; [discriminate|]); contradiction.
  - apply (C6_required_keys c6_input (all_floats_lookup c6_input eq_refl)).
    exists "w". split; [cbn; tauto | reflexivity].
Defined.

(** C6, counterexample: [c2_input] has no ["delta_neff"], which
    [from_cosmosis_camb] reads, yet the call succeeds and substitutes
    [0.0] for it; [T_CMB] is not the only silent default. *)
Lemma C6_delta_neff_default_counterexample :
  dict_lookup c2_input "delta_neff" = None /\
  exists r, from_cosmosis_camb c2_input = Ok r /\
    Neff r = (0.0 + 3.046)%float.
Proof.
  split; [reflexivity|]. eexists. split; [reflexivity|]. vm_compute. reflexivity.
Qed.

(** ** Student-t likelihood *)

(** C7. [StudentT.compute_loglike] returns
    [-0.5 * nu * log(1 + chi2 / (nu - 1))], evaluated left to right in
    binary64, with [chi2] the value of [compute_chisq] on the same
    cosmology and parameters and [nu] the stored shape parameter. *)
Theorem C7_student_t_loglike (Statistic Cosmology : Type)
    (compute_chisq : list Statistic -> Cosmology -> dict -> float)
    (np_log : float -> float) (self : StudentT Statistic)
    (cosmo : Cosmology) (params : dict) :
  compute_loglike Statistic Cosmology compute_chisq np_log self cosmo params
  = (-0.5 * nu Statistic self
     * np_log (1.0 + compute_chisq (statistics Statistic self) cosmo params
                     / (nu Statistic self - 1.0)))%float.
Proof. reflexivity. Qed.

(** C8. Construction of a [StudentT] fails for [nu <= 1]: it raises for
    every [nu], because [super.__init__(statistics)] calls the built-in
    [super] type's [__init__] slot on a list; there is no check of [nu]
    itself. *)
Theorem C8_student_t_construction_fails (Statistic : Type)
    (statistics0 : list Statistic) (nu0 : float) :
  StudentT_init Statistic statistics0 nu0 = Raise (TypeError super_init_msg).
Proof. reflexivity. Qed.

(** ** Parameter parsing *)

Lemma reduce_parameter_Ok (v : pyval) :
  (forall l, v = PList l -> 2 <= length l) ->
  exists v', reduce_parameter v = Ok v' /\
    (forall l, v = PList l -> nth_error l 1 = Some v') /\
    ((forall l, v <> PList l) -> v' = v).
Proof.
  intro Hlen. destruct v as [| | | |l];
    try (eexists; split; [reflexivity | split; [discriminate | reflexivity]]).
  specialize (Hlen l eq_refl).
  destruct l as [|a [|b l']]; cbn in Hlen; try lia.
  exists b. split; [reflexivity|]. split.
  - intros l E. injection E as <-. reflexivity.
  - intro Hn. exfalso. exact (Hn _ eq_refl).
Qed.

(** C9. In [parse], every entry of the sampler's parameter block whose
    value is a list (a [[low, fiducial, high]] triple, or any list of at
    least two elements) is replaced by its element at index 1, and every
    other value is kept; the keys and their order are unchanged. *)
Theorem C9_parse_fiducial (ps : dict) :
  (forall p l, In (p, PList l) ps -> 2 <= length l) ->
  exists ps', parse_parameters ps = Ok ps' /\ map fst ps' = map fst ps /\
    forall p v, dict_lookup ps p = Some v ->
      (forall l, v = PList l -> dict_lookup ps' p = nth_error l 1) /\
      ((forall l, v <> PList l) -> dict_lookup ps' p = Some v).
Proof.
  induction ps as [|[p v] ps IH]; intro Hlen.
  - exists []. split; [reflexivity|]. split; [reflexivity|]. discriminate.
  - destruct (reduce_parameter_Ok v) as [v' [Hred [Hl Hn]]].
    { intros l ->. apply (Hlen p). left. reflexivity. }
    destruct IH as [ps' [Hps' [Hkeys Hlook]]].
    { intros q l Hin. apply (Hlen q). right. exact Hin. }
    exists ((p, v') :: ps'). cbn. rewrite Hred, Hps'. cbn.
    split; [reflexivity|]. split; [f_equal; exact Hkeys|].
    intros q w. destruct (String.eqb q p).
    + intro E. injection E as <-. split.
      * intros l E. symmetry. exact (Hl l E).
      * intro Hw. rewrite (Hn Hw). reflexivity.
    + apply Hlook.
Qed.

(** A block with a sampled range and a fixed value. *)
Lemma C9_parse_fiducial_witness :
  exists ps', parse_parameters
    [("omega_c", PList [PFloat 0.2; PFloat 0.25; PFloat 0.3]);
     ("n_s", PFloat 0.96)] = Ok ps' /\
    map fst ps' = ["omega_c"; "n_s"] /\
    forall p v, dict_lookup
      [("omega_c", PList [PFloat 0.2; PFloat 0.25; PFloat 0.3]);
       ("n_s", PFloat 0.96)] p = Some v ->
      (forall l, v = PList l -> dict_lookup ps' p = nth_error l 1) /\
      ((forall l, v <> PList l) -> dict_lookup ps' p = Some v).
Proof.
  apply C9_parse_fiducial.
  intros p l Hin. cbn in Hin.
  destruct Hin as [E | [E | []]]; [injection E as _ E'; subst l; cbn; lia | discriminate].
Defined.

(** ** Amplitude presence in [convert_cosmobase_to_ccl] *)

Lemma float_falsy_zero (z : float) :
  PrimFloat.eqb z 0.0 = true -> float_truthy z = false.
Proof. intro Hz. unfold float_truthy. rewrite Hz. reflexivity. Qed.

Lemma float_truthy_zero : float_truthy 0.0 = false.
Proof. reflexivity. Qed.

(** C10. [convert_cosmobase_to_ccl] decides amplitude presence by
    truthiness: a [sigma_8] (or [a_s]) entry equal to [0.0] behaves as an
    absent one, so a parameter set without massive neutrinos, with
    [sigma_8 = 0.0] and no [a_s], is rejected with
    ["Need either sigma 8 or A_s in pyccl."] and never reaches
    [ccl.Parameters]. *)
Theorem C10_amplitude_truthiness (cb : CosmoBase) :
  (forall z, PrimFloat.eqb z 0.0 = true ->
   convert_cosmobase_to_ccl (with_sigma_8 cb (Some z))
   = convert_cosmobase_to_ccl (with_sigma_8 cb None)) /\
  (forall z, PrimFloat.eqb z 0.0 = true ->
   convert_cosmobase_to_ccl (with_a_s cb (Some z))
   = convert_cosmobase_to_ccl (with_a_s cb None)) /\
  (cb_sigma_8 cb = Some 0.0%float -> cb_a_s cb = None ->
   float_truthy (cb_omega_n_rel cb + cb_omega_n_mass cb)%float = false ->
   convert_cosmobase_to_ccl cb = Raise (ValueError need_amplitude_msg)).
Proof.
  split; [|split].
  - intros z Hz. unfold convert_cosmobase_to_ccl, with_sigma_8.
    cbn -[float_truthy].
    rewrite (float_falsy_zero z Hz), float_truthy_zero. reflexivity.
  - intros z Hz. unfold convert_cosmobase_to_ccl, with_a_s.
    cbn -[float_truthy].
    rewrite (float_falsy_zero z Hz), float_truthy_zero. reflexivity.
  - intros Hs Ha Hnu. unfold convert_cosmobase_to_ccl.
    rewrite Hnu, Hs, Ha. reflexivity.
Qed.

Lemma C10_amplitude_truthiness_witness :
  convert_cosmobase_to_ccl c10_input = Raise (ValueError need_amplitude_msg).
Proof.
  apply (C10_amplitude_truthiness c10_input); reflexivity.
Defined.

(** ** Systematics wiring in [setup_sources] *)

Lemma existsb_eqb_In (x : string) (l : list string) :
  existsb (String.eqb x) l = true <-> In x l.
Proof.
  rewrite existsb_exists. split.
  - intros [y [Hy E]]. apply String.eqb_eq in E. subst. exact Hy.
  - intro H. exists x. split; [exact H | apply String.eqb_refl].
Qed.

(** The inner loop either resolves every name, recording it as used, or
    raises for the first undefined one. *)
Lemma attach_systematics_cases systematics name names att used :
  (exists att' used',
     attach_systematics systematics name names att used = Done (att', used') /\
     (forall s, In s names -> dict_lookup systematics s <> None) /\
     (forall x, In x used' <-> In x names \/ In x used)) \/
  (exists l1 s l2, names = app l1 (s :: l2) /\
     (forall x, In x l1 -> dict_lookup systematics x <> None) /\
     dict_lookup systematics s = None /\
     attach_systematics systematics name names att used
     = Fail (Exn (ValueError (unresolved_msg s name)))).
Proof.
  revert att used.
  induction names as [|s rest IH]; intros att used; cbn.
  - left. exists att, used. split; [reflexivity|].
    split; [intros _ []|]. intro x. tauto.
  - destruct (dict_lookup systematics s) as [sy|] eqn:E.
    + destruct (IH (app att [sy]) (s :: used))
        as [[att' [used' [H1 [H2 H3]]]] | [l1 [s' [l2 [Hl [Hl1 [Hn H]]]]]]].
      * left. exists att', used'. split; [exact H1|]. split.
        -- intros x [<- | Hx]; [congruence | exact (H2 x Hx)].
        -- intro x. rewrite H3. cbn. tauto.
      * right. exists (s :: l1), s', l2. subst rest.
        split; [reflexivity|]. split; [|auto].
        intros x [<- | Hx]; [congruence | exact (Hl1 x Hx)].
    + right. exists [], s, rest. split; [reflexivity|].
      split; [intros _ []|]. auto.
Qed.

(** The outer loop, when [self.metadata] is set and every source can be
    made: either every reference resolves and [used] collects exactly the
    referenced names, or it raises for the first undefined reference in
    iteration order. *)
Lemma build_sources_cases Source Metadata make_source systematics
    (m : Metadata) info used :
  (forall n si, In (n, si) info ->
     exists src, make_source n (src_type si) m = Done src) ->
  (exists srcs used',
     build_sources Source Metadata make_source systematics (Some m) info used
     = Done (srcs, used') /\
     (forall n si s, In (n, si) info -> In s (source_sys_names si) ->
        dict_lookup systematics s <> None) /\
     (forall x, In x used' <-> referenced info x \/ In x used)) \/
  (exists pre n si post l1 s l2,
     info = app pre ((n, si) :: post) /\
     (forall n' si' x, In (n', si') pre -> In x (source_sys_names si') ->
        dict_lookup systematics x <> None) /\
     source_sys_names si = app l1 (s :: l2) /\
     (forall x, In x l1 -> dict_lookup systematics x <> None) /\
     dict_lookup systematics s = None /\
     build_sources Source Metadata make_source systematics (Some m) info used
     = Fail (Exn (ValueError (unresolved_msg s n)))).
Proof.
  unfold referenced. revert used.
  induction info as [|[n si] rest IH]; intros used Hmk; cbn [build_sources].
  - left. exists [], used. split; [reflexivity|]. split; [intros ? ? ? []|].
    intro x. split; [tauto|]. intros [[? [? [[] _]]] | H]; exact H.
  - destruct (Hmk n si (or_introl eq_refl)) as [src Hsrc].
    cbn [get_metadata obind]. rewrite Hsrc. cbn [obind].
    destruct (attach_systematics_cases systematics n (source_sys_names si) [] used)
      as [[att' [used1 [Ha [Hres Hused]]]] | [l1 [s [l2 [Hl [Hl1 [Hn Ha]]]]]]];
      rewrite Ha; cbn [obind].
    + destruct (IH used1 (fun n' si' Hin => Hmk n' si' (or_intror Hin)))
        as [[srcs [used' [Hb [Hres' Hused']]]]
           | [pre [n' [si' [post [l1 [s [l2 [Hi [Hpre [Hl [Hl1 [Hn Hb]]]]]]]]]]]]];
        rewrite Hb; cbn [obind].
      * left. eexists _, used'. split; [reflexivity|]. split.
        -- intros n0 si0 s0 [E | Hin0] Hs0.
           ++ injection E as E1 E2. subst. exact (Hres s0 Hs0).
           ++ exact (Hres' _ _ _ Hin0 Hs0).
        -- intro x. rewrite Hused', Hused. split.
           ++ intros [[n0 [si0 [Hin0 Hx]]] | [Hx | Hx]].
              ** left. exists n0, si0. split; [right; exact Hin0 | exact Hx].
              ** left. exists n, si. split; [left; reflexivity | exact Hx].
              ** right. exact Hx.
           ++ intros [[n0 [si0 [[E | Hin0] Hx]]] | Hx].
              ** injection E as E1 E2. subst. right. left. exact Hx.
              ** left. exists n0, si0. split; [exact Hin0 | exact Hx].
              ** right. right. exact Hx.
      * right. exists ((n, si) :: pre), n', si', post, l1, s, l2.
        split; [subst rest; reflexivity|].
        split; [|auto].
        intros n0 si0 x [E | Hin0] Hx.
        -- injection E as E1 E2. subst. exact (Hres x Hx).
        -- exact (Hpre n0 si0 x Hin0 Hx).
    + right. exists [], n, si, rest, l1, s, l2.
      split; [reflexivity|]. split; [intros ? ? ? []|]. auto.
Qed.

(** The final loop raises for the first name not used. *)
Lemma check_used_cases names used :
  (check_used names used = Done tt /\ forall x, In x names -> In x used) \/
  (exists l1 x l2, names = app l1 (x :: l2) /\
     (forall y, In y l1 -> In y used) /\ ~ In x used /\
     check_used names used = Fail (Exn (ValueError (unused_msg x)))).
Proof.
  induction names as [|x rest IH]; cbn.
  - left. split; [reflexivity | intros _ []].
  - destruct (existsb (String.eqb x) used) eqn:E.
    + apply existsb_eqb_In in E.
      destruct IH as [[H1 H2] | [l1 [y [l2 [Hl [Hl1 [Hny H]]]]]]].
      * left. split; [exact H1|]. intros z [<- | Hz]; auto.
      * right. exists (x :: l1), y, l2. subst rest.
        split; [reflexivity|]. split; [|auto].
        intros z [<- | Hz]; auto.
    + right. exists [], x, rest. split; [reflexivity|].
      split; [intros _ []|]. split; [|reflexivity].
      intro Hx. apply existsb_eqb_In in Hx. congruence.
Qed.




(* ------------------------------------------------------------------ *)
(** * Further properties of the code *)

(** ** mapping.py: [redshift_to_scale_factor] *)

Lemma combine_app {A B : Type} (x x' : list A) (y y' : list B) :
  length x = length y ->
  combine (app x x') (app y y') = app (combine x y) (combine x' y').
Proof.
  revert y. induction x as [|a x IH]; intros [|b y] Hl; cbn in *;
    try discriminate; [reflexivity|].
  f_equal. apply IH. lia.
Qed.

Lemma combine_rev {A B : Type} (x : list A) (y : list B) :
  length x = length y -> combine (rev x) (rev y) = rev (combine x y).
Proof.
  revert y. induction x as [|a x IH]; intros [|b y] Hl; cbn in *;
    try discriminate; [reflexivity|].
  rewrite combine_app by (rewrite !length_rev; lia).
  rewrite IH by lia. reflexivity.
Qed.

(** X1. [redshift_to_scale_factor] keeps each scale factor [1/(1+z)]
    paired with the power-spectrum row of its redshift: both outputs are
    the inputs reversed, so for a spectrum with one row per redshift the
    (scale, row) pairs are the (1/(1+z), row) pairs in reverse order, and
    no row is lost. *)
Theorem X1_scale_factor_rows_aligned {Row : Type} (z : list float)
    (p_k : list Row) :
  length z = length p_k ->
  length (fst (redshift_to_scale_factor z p_k)) = length z /\
  length (snd (redshift_to_scale_factor z p_k)) = length p_k /\
  combine (fst (redshift_to_scale_factor z p_k))
          (snd (redshift_to_scale_factor z p_k))
  = rev (combine (map (fun zi => (1.0 / (1.0 + zi))%float) z) p_k).
Proof.
  intro Hl. unfold redshift_to_scale_factor; cbn.
  rewrite !length_rev, length_map.
  split; [reflexivity | split; [reflexivity|]].
  apply combine_rev. rewrite length_map. exact Hl.
Qed.

Lemma X1_scale_factor_rows_aligned_witness :
  length (fst (redshift_to_scale_factor [0.0; 1.0; 3.0]%float [10; 20; 30]))
    = 3 /\
  length (snd (redshift_to_scale_factor [0.0; 1.0; 3.0]%float [10; 20; 30]))
    = 3 /\
  combine (fst (redshift_to_scale_factor [0.0; 1.0; 3.0]%float [10; 20; 30]))
          (snd (redshift_to_scale_factor [0.0; 1.0; 3.0]%float [10; 20; 30]))
  = [(0.25%float, 30); (0.5%float, 20); (1.0%float, 10)].
Proof.
  refine (let H := X1_scale_factor_rows_aligned [0.0; 1.0; 3.0]%float
                     [10; 20; 30] eq_refl in _).
  destruct H as [H1 [H2 H3]].
  split; [exact H1 | split; [exact H2|]].
  rewrite H3. vm_compute. reflexivity.
Defined.

(** ** mapping.py: [asdict] and the constructor *)

(** X2. The dict [asdict()] returns cannot be passed back to the
    constructor: it carries the key ["Omega_g"], which is no keyword of
    [PyCCLCosmologyConstants.__init__], so
    [PyCCLCosmologyConstants( **c.asdict())] always raises [TypeError]. *)
Theorem X2_asdict_not_constructor_kwargs (c : PyCCLCosmologyConstants) :
  In "Omega_g" (map fst (asdict c)) /\
  init_from_kwargs (asdict c)
  = Raise (TypeError (unexpected_kw_msg "Omega_g")).
Proof. split; [cbn; tauto | reflexivity]. Qed.

Lemma init_Omega_g_None
    Omega_c0 Omega_b0 h0 A_s0 sigma80 n_s0 Omega_k0 Neff0 m_nu0 m_nu_type0
    w00 wa0 T_CMB0 r :
  PyCCLCosmologyConstants_init Omega_c0 Omega_b0 h0 A_s0 sigma80 n_s0
    Omega_k0 Neff0 m_nu0 m_nu_type0 w00 wa0 T_CMB0 = Ok r ->
  Omega_g r = None.
Proof.
  unfold PyCCLCosmologyConstants_init. intro H.
  peel_binds.
  destruct (negb (is_none A_s0) && negb (is_none sigma80)); [discriminate|].
  peel_binds. injection H as <-. reflexivity.
Qed.

(** X3. Round trip: every object the constructor builds is rebuilt,
    equal in every attribute, by calling the constructor with the
    keyword arguments of its [asdict()] without ["Omega_g"]. *)
Theorem X3_asdict_round_trip
    Omega_c0 Omega_b0 h0 A_s0 sigma80 n_s0 Omega_k0 Neff0 m_nu0 m_nu_type0
    w00 wa0 T_CMB0 (c : PyCCLCosmologyConstants) :
  PyCCLCosmologyConstants_init Omega_c0 Omega_b0 h0 A_s0 sigma80 n_s0
    Omega_k0 Neff0 m_nu0 m_nu_type0 w00 wa0 T_CMB0 = Ok c ->
  init_from_kwargs (asdict_kwargs c) = Ok c.
Proof.
  intro H.
  pose proof (init_Omega_g_None _ _ _ _ _ _ _ _ _ _ _ _ _ _ H) as Hg.
  apply PyCCLCosmologyConstants_init_Ok in H.
  destruct H as [_ [_ [_ [_ Hamp]]]].
  destruct c as [oc ob hh [a|] [s|] ns ok [g|] ne mn mt w wa' t];
    cbn in Hg, Hamp; try discriminate.
  - exfalso. assert (E : Some a = None) by (apply Hamp; discriminate).
    discriminate E.
  - reflexivity.
  - reflexivity.
  - exfalso. exact (proj1 Hamp eq_refl eq_refl).
Qed.

(** The constructor's own keyword call on sampled values, and back. *)
Lemma X3_asdict_round_trip_witness :
  exists c,
  PyCCLCosmologyConstants_init (PFloat 0.25) (PFloat 0.05) (PFloat 0.7)
    PNone (PFloat 0.8) (PFloat 0.96) (PFloat 0.0) (PFloat 3.046)
    (PFloat 0.06) (PStr "normal") (PFloat (-1.0)) (PFloat 0.0)
    (PFloat 2.7255) = Ok c /\
  init_from_kwargs (asdict_kwargs c) = Ok c.
Proof.
  eexists. split; [reflexivity|].
  apply (X3_asdict_round_trip (PFloat 0.25) (PFloat 0.05) (PFloat 0.7)
    PNone (PFloat 0.8) (PFloat 0.96) (PFloat 0.0) (PFloat 3.046)
    (PFloat 0.06) (PStr "normal") (PFloat (-1.0)) (PFloat 0.0)
    (PFloat 2.7255)).
  reflexivity.
Defined.

(** ** parser.py: [update_dict] *)

Lemma dict_lookup_dict_set {V : Type} (d : list (string * V)) k v k' :
  dict_lookup (dict_set d k v) k' =
  if String.eqb k' k then Some v else dict_lookup d k'.
Proof.
  induction d as [|[k0 v0] d IH]; cbn.
  - reflexivity.
  - destruct (String.eqb k k0) eqn:E; cbn.
    + apply String.eqb_eq in E. subst k0.
      destruct (String.eqb k' k); reflexivity.
    + rewrite IH. destruct (String.eqb k' k0) eqn:E0; [|reflexivity].
      apply String.eqb_eq in E0. subst k0.
      destruct (String.eqb k' k) eqn:E1; [|reflexivity].
      apply String.eqb_eq in E1. subst k'. rewrite String.eqb_refl in E.
      discriminate.
Qed.

Lemma dict_set_present {V : Type} (d : list (string * V)) k v :
  dict_lookup d k = Some v -> dict_set d k v = d.
Proof.
  induction d as [|[k0 v0] d IH]; cbn; [discriminate|].
  destruct (String.eqb k k0) eqn:E.
  - intro H. injection H as ->. reflexivity.
  - intro H. rewrite (IH H). reflexivity.
Qed.

Lemma dict_lookup_notin {V : Type} (d : list (string * V)) k :
  ~ In k (map fst d) -> dict_lookup d k = None.
Proof.
  induction d as [|[k0 v0] d IH]; cbn; [reflexivity|].
  intro Hn. destruct (String.eqb k k0) eqn:E.
  - apply String.eqb_eq in E. subst k0. exfalso. apply Hn. left. reflexivity.
  - apply IH. intro Hi. apply Hn. right. exact Hi.
Qed.

Lemma dict_lookup_In {V : Type} (d : list (string * V)) k v :
  NoDup (map fst d) -> In (k, v) d -> dict_lookup d k = Some v.
Proof.
  induction d as [|[k0 v0] d IH]; cbn; [tauto|].
  intros Hnd Hin. inversion Hnd as [|? ? Hn Hnd']; subst.
  destruct Hin as [E | Hin].
  - injection E as -> ->. rewrite String.eqb_refl. reflexivity.
  - destruct (String.eqb k k0) eqn:E.
    + apply String.eqb_eq in E. subst k0. exfalso. apply Hn.
      apply (in_map fst _ _ Hin).
    + exact (IH Hnd' Hin).
Qed.

Lemma keys_unique_NoDup (ks : list string) :
  keys_unique ks = true -> NoDup ks.
Proof.
  induction ks as [|k ks IH]; cbn; intro H; [constructor|].
  apply andb_true_iff in H. destruct H as [Hm Hr].
  constructor; [|exact (IH Hr)].
  intro Hin. unfold mem in Hm. rewrite negb_true_iff in Hm.
  assert (existsb (String.eqb k) ks = true) as Hc.
  { apply existsb_exists. exists k. split; [exact Hin | apply String.eqb_refl]. }
  congruence.
Qed.

Lemma cfg_keys_unique_CMap (m : list (string * cfg)) :
  cfg_keys_unique (CMap m) = true ->
  NoDup (map fst m) /\ forall k v, In (k, v) m -> cfg_keys_unique v = true.
Proof.
  cbn. intro H. apply andb_true_iff in H. destruct H as [Hk Hall].
  split; [exact (keys_unique_NoDup _ Hk)|].
  induction m as [|[k0 v0] m IH]; cbn in *; [tauto|].
  apply andb_true_iff in Hall. destruct Hall as [Hv Hall].
  intros k v [E | Hin]; [injection E as -> ->; exact Hv|].
  refine (IH _ Hall k v Hin).
  apply andb_true_iff in Hk. tauto.
Qed.

(** Nested induction on configuration values. *)
Fixpoint cfg_ind' (P : cfg -> Prop) (HL : forall v, P (CLeaf v))
    (HM : forall m, Forall (fun e => P (snd e)) m -> P (CMap m))
    (c : cfg) {struct c} : P c :=
  match c with
  | CLeaf v => HL v
  | CMap m =>
      HM m ((fix go (m : list (string * cfg)) : Forall (fun e => P (snd e)) m :=
               match m with
               | [] => Forall_nil _
               | e :: rest => Forall_cons e (cfg_ind' P HL HM (snd e)) (go rest)
               end) m)
  end.

(** The merge loop with any recursive call [rec]: what it leaves in each
    key of the target. *)
Lemma update_items_lookup (rec : cfg -> cfg -> outcome cfg)
    (um : list (string * cfg)) :
  NoDup (map fst um) ->
  forall dm r, update_items rec (CMap dm) um = Done r ->
  exists dm', r = CMap dm' /\
    forall k, match dict_lookup um k with
              | None => dict_lookup dm' k = dict_lookup dm k
              | Some (CLeaf v) => dict_lookup dm' k = Some (CLeaf v)
              | Some (CMap m) => exists sub,
                  rec (cfg_get dm k) (CMap m) = Done sub /\
                  dict_lookup dm' k = Some sub
              end.
Proof.
  induction um as [|[k0 v0] um IH]; intros Hnd dm r H.
  - cbn in H. injection H as <-. exists dm. split; [reflexivity|].
    intro k. reflexivity.
  - inversion Hnd as [|? ? Hn Hnd']; subst.
    assert (Hk0 : dict_lookup um k0 = None) by exact (dict_lookup_notin _ _ Hn).
    cbn in H. destruct v0 as [x|m0].
    + destruct (IH Hnd' _ _ H) as [dm' [-> Hlaw]].
      exists dm'. split; [reflexivity|]. intro k. cbn.
      specialize (Hlaw k). rewrite dict_lookup_dict_set in Hlaw.
      destruct (String.eqb k k0) eqn:E.
      * apply String.eqb_eq in E. subst k. rewrite Hk0 in Hlaw. exact Hlaw.
      * destruct (dict_lookup um k) as [[y|m]|]; try exact Hlaw.
        unfold cfg_get in *. rewrite dict_lookup_dict_set, E in Hlaw.
        exact Hlaw.
    + destruct (rec (cfg_get dm k0) (CMap m0)) as [sub|e] eqn:Erec;
        cbn in H; [|discriminate].
      destruct (IH Hnd' _ _ H) as [dm' [-> Hlaw]].
      exists dm'. split; [reflexivity|]. intro k. cbn.
      specialize (Hlaw k). rewrite dict_lookup_dict_set in Hlaw.
      destruct (String.eqb k k0) eqn:E.
      * apply String.eqb_eq in E. subst k. rewrite Hk0 in Hlaw.
        exists sub. split; [exact Erec | exact Hlaw].
      * destruct (dict_lookup um k) as [[y|m]|]; try exact Hlaw.
        unfold cfg_get in *. rewrite dict_lookup_dict_set, E in Hlaw.
        exact Hlaw.
Qed.



(** A target that is no mapping takes only the empty update. *)
Lemma update_dict_leaf_target (x : pyval) (u r : cfg) :
  update_dict (CLeaf x) u = Done r -> u = CMap [] /\ r = CLeaf x.
Proof.
  destruct u as [v|[|[k [y|m]] rest]]; intro H; cbn in H; try discriminate.
  injection H as <-. split; reflexivity.
Qed.




(** ** calculator.py: [update_systematics] and [run] *)

(** X7. [update_systematics] iterates the keys of the systematics table,
    which are strings, and calls [.update] on them: it succeeds only on
    an empty table and raises [AttributeError] on any non-empty one,
    whatever the parameters. *)
Theorem X7_update_systematics_raises
    (systematics : list (string * Systematic)) (parameters : dict) :
  update_systematics systematics parameters =
  match systematics with
  | [] => Done tt
  | _ :: _ => Fail (AttributeError no_update_msg)
  end.
Proof. destruct systematics as [|[sys s] rest]; reflexivity. Qed.

(** X8. [TwoPointTheoryCalculator.run] never returns results: it raises
    the converter's error, or the error of [ccl.Cosmology], and once both
    succeed it raises [NameError] on the undefined name [something]. *)
Theorem X8_run_never_returns (Cosmo : Type)
    (ccl_Cosmology : CCLParameters -> outcome Cosmo) (TheoryResults : Type)
    (sources : list unit) (parameters : CosmoBase) :
  (forall res, run Cosmo ccl_Cosmology TheoryResults sources parameters
               <> Done res) /\
  (forall params cosmo, convert_cosmobase_to_ccl parameters = Ok params ->
     ccl_Cosmology params = Done cosmo ->
     run Cosmo ccl_Cosmology TheoryResults sources parameters =
     Fail (NameError something_msg)).
Proof.
  unfold run. split.
  - intro res. destruct (convert_cosmobase_to_ccl parameters) as [p|e];
      cbn; [|discriminate].
    destruct (ccl_Cosmology p); cbn; discriminate.
  - intros params cosmo Hc Hccl. rewrite Hc. cbn. rewrite Hccl. reflexivity.
Qed.

Lemma X8_run_never_returns_witness :
  convert_cosmobase_to_ccl (with_sigma_8 c10_input (Some 0.8%float))
    = Ok {| ccl_Omega_c := 0.25; ccl_Omega_b := 0.05; ccl_Omega_k := 0.0;
            ccl_w0 := -1.0; ccl_wa := 0.0; ccl_amplitude := AmpSigma8 0.8;
            ccl_n_s := 0.96; ccl_h := 0.7 |} /\
  run unit (fun _ => Done tt) unit [tt; tt]
    (with_sigma_8 c10_input (Some 0.8%float)) =
  Fail (NameError something_msg).
Proof.
  split; [reflexivity|].
  eapply (proj2 (X8_run_never_returns unit (fun _ => Done tt) unit [tt; tt]
                  (with_sigma_8 c10_input (Some 0.8%float))) _ tt);
    reflexivity.
Defined.

(** ** cosmosis_entry_point.py: [execute] *)

Lemma key_eqb_refl (a : string) : key_eqb a a = true.
Proof. apply String.eqb_refl. Qed.

Lemma block_lookup_block_set (b : Block) s n v s' n' :
  block_lookup (block_set b s n v) s' n' =
  if key_eqb s' s && key_eqb n' n then Some v else block_lookup b s' n'.
Proof.
  unfold key_eqb.
  induction b as [|[[s0 n0] v0] b IH]; cbn; unfold key_eqb; [reflexivity|].
  destruct (String.eqb (lower s) (lower s0) && String.eqb (lower n) (lower n0))
    eqn:E; cbn; unfold key_eqb.
  - apply andb_true_iff in E. destruct E as [E1 E2].
    apply String.eqb_eq in E1, E2. rewrite <- E1, <- E2.
    destruct (String.eqb (lower s') (lower s) && String.eqb (lower n') (lower n));
      reflexivity.
  - rewrite IH.
    destruct (String.eqb (lower s') (lower s0) && String.eqb (lower n') (lower n0))
      eqn:E0; [|reflexivity].
    apply andb_true_iff in E0. destruct E0 as [E1 E2].
    apply String.eqb_eq in E1, E2. rewrite <- E1, <- E2 in E.
    rewrite (String.eqb_sym (lower s') (lower s)),
      (String.eqb_sym (lower n') (lower n)), E.
    reflexivity.
Qed.

Section ExecuteProperties.

Variables Consistency ParameterSet Params Cosmology Analysis TheoryResult : Type.
Variable block_to_parameters : Block -> Consistency -> outcome ParameterSet.
Variable convert : ParameterSet -> outcome Params.
Variable ccl_cosmology : Params -> outcome Cosmology.
Variable analysis_name : Analysis -> string.
Variable analysis_run :
  Analysis -> Cosmology -> ParameterSet -> outcome (float * TheoryResult).
Variable to_cosmosis_block : TheoryResult -> Block -> outcome Block.

(** The block name of an analysis's likelihood, as the block compares it. *)
Let like_key (a : Analysis) : string := lower (analysis_name a ++ "_like").

(** What the analysis loop leaves behind: the likelihood of each analysis
    from its [run], their running sum, and (when [to_cosmosis_block]
    never writes the ["likelihoods"] section and the keys are distinct up
    to case) each likelihood under its key, the rest of the section
    untouched. *)
Lemma run_analyses_spec (analyses : list Analysis) cosmo ps :
  forall block acc b tot,
  run_analyses ParameterSet Cosmology Analysis TheoryResult analysis_name
    analysis_run to_cosmosis_block analyses cosmo ps block acc = Done (b, tot) ->
  exists likes,
    Forall2 (fun a l => exists tr, analysis_run a cosmo ps = Done (l, tr))
      analyses likes /\
    tot = fold_left (fun acc l => (acc + l)%float) likes acc /\
    ((forall tr b0 b1 n, to_cosmosis_block tr b0 = Done b1 ->
        block_lookup b1 "likelihoods" n = block_lookup b0 "likelihoods" n) ->
     NoDup (map like_key analyses) ->
     (forall a l, In (a, l) (combine analyses likes) ->
        block_lookup b "likelihoods" (analysis_name a ++ "_like")
        = Some (PFloat l)) /\
     (forall n, ~ In (lower n) (map like_key analyses) ->
        block_lookup b "likelihoods" n = block_lookup block "likelihoods" n)).
Proof.
  induction analyses as [|a rest IH]; intros block acc b tot H; cbn in H.
  - injection H as <- <-. exists []. split; [constructor|].
    split; [reflexivity|]. intros _ _. split; [intros ? ? []|reflexivity].
  - destruct (analysis_run a cosmo ps) as [[like tr]|e] eqn:Erun;
      cbn in H; [|discriminate].
    destruct (to_cosmosis_block tr block) as [block1|e] eqn:Etcb;
      cbn in H; [|discriminate].
    destruct (IH _ _ _ _ H) as [likes [Hf [Htot Hent]]].
    exists (like :: likes). split; [constructor; [eauto | exact Hf]|].
    split; [exact Htot|].
    intros Hframe Hnd. inversion Hnd as [|? ? Hn Hnd']; subst.
    destruct (Hent Hframe Hnd') as [Hin Hout]. split.
    + intros a' l [E | Hi].
      * injection E as <- <-. rewrite (Hout _ Hn).
        rewrite block_lookup_block_set, !key_eqb_refl. reflexivity.
      * exact (Hin a' l Hi).
    + intros n Hn'. rewrite Hout by (intro Hi; apply Hn'; right; exact Hi).
      rewrite block_lookup_block_set.
      destruct (key_eqb n (analysis_name a ++ "_like")) eqn:E.
      * apply String.eqb_eq in E. exfalso. apply Hn'. left.
        symmetry. exact E.
      * rewrite andb_false_r. exact (Hframe _ _ _ _ Etcb).
Qed.

(** X9. When [execute] completes it returns [0], and the block's
    [("likelihoods", "total_like")] holds the float sum, taken left to
    right from [0.0], of the likelihoods the analyses' [run] returned, one
    per analysis in order. *)
Theorem X9_execute_total_like (block : Block) (analyses : list Analysis)
    (consistency : Consistency) (status : Z) (b : Block) :
  execute Consistency ParameterSet Params Cosmology Analysis TheoryResult
    block_to_parameters convert ccl_cosmology analysis_name analysis_run
    to_cosmosis_block block (analyses, consistency) = Done (status, b) ->
  status = 0%Z /\
  exists ps params cosmo likes,
    block_to_parameters block consistency = Done ps /\
    convert ps = Done params /\ ccl_cosmology params = Done cosmo /\
    Forall2 (fun a l => exists tr, analysis_run a cosmo ps = Done (l, tr))
      analyses likes /\
    block_lookup b "likelihoods" "total_like" =
    Some (PFloat (fold_left (fun acc l => (acc + l)%float) likes 0.0%float)).
Proof.
  unfold execute. intro H.
  destruct (block_to_parameters block consistency) as [ps|e] eqn:Eps;
    cbn in H; [|discriminate].
  destruct (convert ps) as [params|e] eqn:Epar; cbn in H; [|discriminate].
  destruct (ccl_cosmology params) as [cosmo|e] eqn:Ecos; cbn in H;
    [|discriminate].
  destruct (run_analyses ParameterSet Cosmology Analysis TheoryResult
              analysis_name analysis_run to_cosmosis_block analyses cosmo ps
              block 0.0) as [[b' tot]|e] eqn:Eloop; cbn in H; [|discriminate].
  injection H as <- <-. split; [reflexivity|].
  destruct (run_analyses_spec _ _ _ _ _ _ _ Eloop) as [likes [Hf [Htot _]]].
  exists ps, params, cosmo, likes.
  split; [|split; [|split]]; try (reflexivity || assumption).
  split; [exact Hf|].
  rewrite block_lookup_block_set, !key_eqb_refl, Htot. reflexivity.
Qed.

(** X10. When [execute] completes, every analysis's likelihood is in the
    block under [("likelihoods", name + "_like")], provided
    [to_cosmosis_block] never writes the ["likelihoods"] section and the
    keys [name + "_like"] are distinct from each other and from
    ["total_like"] once lower-cased, as the block compares names (an
    analysis named ["total"] or ["Total"] would be overwritten by the
    total). *)
Theorem X10_execute_like_entries (block : Block) (analyses : list Analysis)
    (consistency : Consistency) (status : Z) (b : Block) :
  (forall tr b0 b1 n, to_cosmosis_block tr b0 = Done b1 ->
     block_lookup b1 "likelihoods" n = block_lookup b0 "likelihoods" n) ->
  NoDup (map (fun a => lower (analysis_name a ++ "_like")) analyses) ->
  ~ In "total_like" (map (fun a => lower (analysis_name a ++ "_like")) analyses) ->
  execute Consistency ParameterSet Params Cosmology Analysis TheoryResult
    block_to_parameters convert ccl_cosmology analysis_name analysis_run
    to_cosmosis_block block (analyses, consistency) = Done (status, b) ->
  exists ps cosmo likes,
    block_to_parameters block consistency = Done ps /\
    Forall2 (fun a l => exists tr, analysis_run a cosmo ps = Done (l, tr))
      analyses likes /\
    forall a l, In (a, l) (combine analyses likes) ->
      block_lookup b "likelihoods" (analysis_name a ++ "_like")
      = Some (PFloat l).
Proof.
  intros Hframe Hnd Htotal. unfold execute. intro H.
  destruct (block_to_parameters block consistency) as [ps|e] eqn:Eps;
    cbn in H; [|discriminate].
  destruct (convert ps) as [params|e] eqn:Epar; cbn in H; [|discriminate].
  destruct (ccl_cosmology params) as [cosmo|e] eqn:Ecos; cbn in H;
    [|discriminate].
  destruct (run_analyses ParameterSet Cosmology Analysis TheoryResult
              analysis_name analysis_run to_cosmosis_block analyses cosmo ps
              block 0.0) as [[b' tot]|e] eqn:Eloop; cbn in H; [|discriminate].
  injection H as <- <-.
  destruct (run_analyses_spec _ _ _ _ _ _ _ Eloop) as [likes [Hf [_ Hent]]].
  destruct (Hent Hframe Hnd) as [Hin _].
  exists ps, cosmo, likes. split; [reflexivity || assumption|].
  split; [exact Hf|].
  intros a l Hal. rewrite block_lookup_block_set.
  destruct (key_eqb (analysis_name a ++ "_like") "total_like") eqn:E.
  - exfalso. apply String.eqb_eq in E.
    assert (Et : lower "total_like" = "total_like") by reflexivity.
    rewrite Et in E. apply Htotal. rewrite <- E.
    apply (in_map (fun a => lower (analysis_name a ++ "_like"))).
    exact (in_combine_l _ _ _ _ Hal).
  - rewrite andb_false_r. exact (Hin a l Hal).
Qed.

End ExecuteProperties.

(** Two analyses, ["shear"] and ["clustering"], whose theory output goes
    to its own section of the block. *)
Lemma X9_execute_total_like_witness :
  exists b,
  execute unit unit unit unit string unit (fun _ _ => Done tt)
    (fun _ => Done tt) (fun _ => Done tt) (fun a => a)
    (fun a _ _ => Done (if String.eqb a "shear" then (-12.5)%float
                        else (-3.25)%float, tt))
    (fun _ b => Done (block_set b "data_vector" "theory" (PInt 1)))
    [] (["shear"; "clustering"], tt) = Done (0%Z, b) /\
  0%Z = 0%Z /\
  exists ps params cosmo likes,
    (fun (_ : Block) (_ : unit) => Done tt) [] tt = Done ps /\
    (fun _ => Done tt) ps = Done params /\
    (fun _ => Done tt) params = Done cosmo /\
    Forall2 (fun a l => exists tr,
      (fun a _ _ => Done (if String.eqb a "shear" then (-12.5)%float
                          else (-3.25)%float, tt)) a cosmo ps = Done (l, tr))
      ["shear"; "clustering"] likes /\
    block_lookup b "likelihoods" "total_like" =
    Some (PFloat (fold_left (fun acc l => (acc + l)%float) likes 0.0%float)).
Proof.
  match goal with
  | |- exists b, ?lhs = Done (?z, b) /\ _ =>
      assert (H : exists b, lhs = Done (z, b)) by (eexists; reflexivity);
      destruct H as [b Hb]; exists b; split; [exact Hb|]
  end.
  exact (X9_execute_total_like _ _ _ _ _ _ _ _ _ _ _ _ _ _ _ _ _ Hb).
Defined.

Lemma X10_execute_like_entries_witness :
  exists b,
  execute unit unit unit unit string unit (fun _ _ => Done tt)
    (fun _ => Done tt) (fun _ => Done tt) (fun a => a)
    (fun a _ _ => Done (if String.eqb a "shear" then (-12.5)%float
                        else (-3.25)%float, tt))
    (fun _ b => Done (block_set b "data_vector" "theory" (PInt 1)))
    [] (["shear"; "clustering"], tt) = Done (0%Z, b) /\
  exists ps (cosmo : unit) likes,
    (fun (_ : Block) (_ : unit) => Done tt) [] tt = Done ps /\
    Forall2 (fun a l => exists tr,
      (fun a _ _ => Done (if String.eqb a "shear" then (-12.5)%float
                          else (-3.25)%float, tt)) a cosmo ps = Done (l, tr))
      ["shear"; "clustering"] likes /\
    forall a l, In (a, l) (combine ["shear"; "clustering"] likes) ->
      block_lookup b "likelihoods" ((fun a => a) a ++ "_like")
      = Some (PFloat l).
Proof.
  match goal with
  | |- exists b, ?lhs = Done (?z, b) /\ _ =>
      assert (H : exists b, lhs = Done (z, b)) by (eexists; reflexivity);
      destruct H as [b Hb]; exists b; split; [exact Hb|]
  end.
  refine (X10_execute_like_entries _ _ _ _ _ _ _ _ _ _ _ _ _ _ _ _ _
            _ _ _ Hb).
  - intros tr b0 b1 n E. injection E as <-.
    rewrite block_lookup_block_set. reflexivity.
  - apply keys_unique_NoDup. reflexivity.
  - cbn. intros [E | [E | []]]; discriminate E.
Defined.

(** ** calculator.py: [convert_cosmobase_to_ccl] *)

(** X11. What [convert_cosmobase_to_ccl] hands to [ccl.Parameters]: it
    succeeds only without neutrino density; [Omega_c], [Omega_b],
    [Omega_k], [w0], [wa], [n_s] and [h] pass through unchanged (no sign
    flip of [wa]); the amplitude is [sigma8] when [sigma_8] is present
    and non-zero (then [a_s] is absent or zero), and [A_s] otherwise
    (then [a_s] is present and non-zero, and [sigma_8] absent or zero). *)
Theorem X11_convert_success (cb : CosmoBase) (p : CCLParameters) :
  convert_cosmobase_to_ccl cb = Ok p ->
  float_truthy (cb_omega_n_rel cb + cb_omega_n_mass cb)%float = false /\
  ccl_Omega_c p = cb_omega_c cb /\ ccl_Omega_b p = cb_omega_b cb /\
  ccl_Omega_k p = cb_omega_k cb /\ ccl_w0 p = cb_w0 cb /\
  ccl_wa p = cb_wa cb /\ ccl_n_s p = cb_n_s cb /\ ccl_h p = cb_h cb /\
  ((exists s, cb_sigma_8 cb = Some s /\ float_truthy s = true /\
     ccl_amplitude p = AmpSigma8 s /\
     forall a, cb_a_s cb = Some a -> float_truthy a = false) \/
   (exists a, cb_a_s cb = Some a /\ float_truthy a = true /\
     ccl_amplitude p = AmpA_s a /\
     forall s, cb_sigma_8 cb = Some s -> float_truthy s = false)).
Proof.
  unfold convert_cosmobase_to_ccl. intro H.
  destruct (float_truthy (cb_omega_n_rel cb + cb_omega_n_mass cb)%float);
    [discriminate|].
  split; [reflexivity|].
  destruct (cb_sigma_8 cb) as [s|]; destruct (cb_a_s cb) as [a|];
    rewrite ?float_truthy_zero in H;
    [destruct (float_truthy s) eqn:Es; destruct (float_truthy a) eqn:Ea
    |destruct (float_truthy s) eqn:Es
    |destruct (float_truthy a) eqn:Ea
    |]; cbn in H; try discriminate; injection H as <-;
    repeat (split; [reflexivity|]).
  - left. exists s. repeat split; [exact Es|]. intros a' E. congruence.
  - right. exists a. repeat split; [exact Ea|]. intros s' E. congruence.
  - left. exists s. repeat split; [exact Es|]. discriminate.
  - right. exists a. repeat split; [exact Ea|]. discriminate.
Qed.

Lemma X11_convert_success_witness :
  convert_cosmobase_to_ccl (with_a_s c10_input (Some 2.1e-9%float))
  = Ok {| ccl_Omega_c := 0.25; ccl_Omega_b := 0.05; ccl_Omega_k := 0.0;
          ccl_w0 := -1.0; ccl_wa := 0.0; ccl_amplitude := AmpA_s 2.1e-9;
          ccl_n_s := 0.96; ccl_h := 0.7 |} /\
  float_truthy (cb_omega_n_rel (with_a_s c10_input (Some 2.1e-9%float)) +
                cb_omega_n_mass (with_a_s c10_input (Some 2.1e-9%float)))%float
    = false /\
  0.25%float = 0.25%float /\ 0.05%float = 0.05%float /\
  0.0%float = 0.0%float /\ (-1.0)%float = (-1.0)%float /\
  0.0%float = 0.0%float /\ 0.96%float = 0.96%float /\ 0.7%float = 0.7%float /\
  ((exists s, Some 0.0%float = Some s /\ float_truthy s = true /\
     AmpA_s 2.1e-9 = AmpSigma8 s /\
     forall a, Some 2.1e-9%float = Some a -> float_truthy a = false) \/
   (exists a, Some 2.1e-9%float = Some a /\ float_truthy a = true /\
     AmpA_s 2.1e-9 = AmpA_s a /\
     forall s, Some 0.0%float = Some s -> float_truthy s = false)).
Proof.
  split; [reflexivity|].
  exact (X11_convert_success (with_a_s c10_input (Some 2.1e-9%float)) _
           eq_refl).
Defined.

(** X12. Order of the checks in [convert_cosmobase_to_ccl]: a non-zero
    neutrino density [omega_n_rel + omega_n_mass] is refused first,
    whatever the amplitudes; without it, a non-zero [sigma_8] together
    with a non-zero [a_s] is refused with "pick one". *)
Theorem X12_convert_errors (cb : CosmoBase) :
  (float_truthy (cb_omega_n_rel cb + cb_omega_n_mass cb)%float = true ->
   convert_cosmobase_to_ccl cb = Raise (ValueError massive_nu_msg)) /\
  (float_truthy (cb_omega_n_rel cb + cb_omega_n_mass cb)%float = false ->
   forall s a, cb_sigma_8 cb = Some s -> cb_a_s cb = Some a ->
   float_truthy s = true -> float_truthy a = true ->
   convert_cosmobase_to_ccl cb = Raise (ValueError both_amplitudes_msg)).
Proof.
  unfold convert_cosmobase_to_ccl. split.
  - intro Hnu. rewrite Hnu. reflexivity.
  - intros Hnu s a Hs Ha Hts Hta. rewrite Hnu, Hs, Ha, Hts, Hta. reflexivity.
Qed.

Lemma X12_convert_errors_witness :
  convert_cosmobase_to_ccl
    {| cb_omega_c := 0.25; cb_omega_b := 0.05; cb_omega_k := 0.0;
       cb_omega_n_rel := 0.0; cb_omega_n_mass := 0.001; cb_w0 := -1.0;
       cb_wa := 0.0; cb_h := 0.7; cb_sigma_8 := Some 0.8%float;
       cb_a_s := Some 2.1e-9%float; cb_n_s := 0.96 |}
  = Raise (ValueError massive_nu_msg) /\
  convert_cosmobase_to_ccl
    (with_a_s (with_sigma_8 c10_input (Some 0.8%float)) (Some 2.1e-9%float))
  = Raise (ValueError both_amplitudes_msg).
Proof.
  split.
  - apply (proj1 (X12_convert_errors _)). reflexivity.
  - eapply (proj2 (X12_convert_errors _)); reflexivity.
Defined.

(** ** mapping.py: [from_cosmosis_camb] *)

(** X13. What every successful [from_cosmosis_camb] stores besides the
    values covered above: [A_s] is [None] and [sigma8] is the float read
    from ["sigma_8"]; [Omega_g] is [None]; [m_nu_type] is ["normal"];
    [T_CMB] is [2.7255]; and [m_nu] is the Python product
    [omega_nu * h * h * 93.14], evaluated left to right, with [h] the
    float read from ["h0"]. *)
Theorem X13_cosmosis_camb_fields (params : dict) (r : PyCCLCosmologyConstants) :
  from_cosmosis_camb params = Ok r ->
  A_s r = None /\
  getitem params "sigma_8" = Ok (PFloat (match sigma8 r with
                                         | Some s => s
                                         | None => 0.0 end)) /\
  sigma8 r <> None /\ Omega_g r = None /\ m_nu_type r = "normal" /\
  T_CMB r = 2.7255%float /\ getitem params "h0" = Ok (PFloat (h r)) /\
  exists omega_nu t1 t2,
    getitem params "omega_nu" = Ok omega_nu /\
    py_mul omega_nu (PFloat (h r)) = Ok t1 /\
    py_mul t1 (PFloat (h r)) = Ok t2 /\
    py_mul t2 (PFloat 93.14) = Ok (PFloat (m_nu r)).
Proof.
  unfold from_cosmosis_camb. intro H. peel_binds.
  destruct (init_sigma8_only _ _ _ _ _ _ _ _ _ _ _ _ _ H)
    as [HA [[s [Hs Hs']] [Hh [Ht [Hm [HT Hg]]]]]].
  subst.
  repeat match goal with
         | E : PStr _ = PStr _ |- _ => injection E as E
         | E : PFloat _ = PFloat _ |- _ => injection E as E
         end.
  rewrite Hs'. split; [exact HA|]. split; [assumption|].
  split; [discriminate|]. split; [exact Hg|].
  split; [congruence|]. split; [congruence|]. split; [assumption|].
  eauto 10.
Qed.

Lemma X13_cosmosis_camb_fields_witness :
  exists r, from_cosmosis_camb c2_input = Ok r /\
  A_s r = None /\
  getitem c2_input "sigma_8" = Ok (PFloat (match sigma8 r with
                                           | Some s => s
                                           | None => 0.0 end)) /\
  sigma8 r <> None /\ Omega_g r = None /\ m_nu_type r = "normal" /\
  T_CMB r = 2.7255%float /\ getitem c2_input "h0" = Ok (PFloat (h r)) /\
  exists omega_nu t1 t2,
    getitem c2_input "omega_nu" = Ok omega_nu /\
    py_mul omega_nu (PFloat (h r)) = Ok t1 /\
    py_mul t1 (PFloat (h r)) = Ok t2 /\
    py_mul t2 (PFloat 93.14) = Ok (PFloat (m_nu r)).
Proof.
  assert (H : exists r, from_cosmosis_camb c2_input = Ok r)
    by (eexists; reflexivity).
  destruct H as [r Hr]. exists r. split; [exact Hr|].
  exact (X13_cosmosis_camb_fields c2_input r Hr).
Defined.

(** ** parser.py: the parameter loop of [parse] *)

(** A short list makes the loop raise [IndexError], and only a short
    list does. *)
Lemma parse_parameters_short_list_iff (ps : dict) :
  (exists p l, In (p, PList l) ps /\ length l < 2) <->
  parse_parameters ps = Raise (IndexError "list index out of range").
Proof.
  induction ps as [|[p v] ps IH]; cbn.
  - split; [intros (? & ? & [] & _) | discriminate].
  - split.
    + intros (q & l & [E | Hin] & Hl).
      * injection E as <- ->. destruct l as [|a [|b l]]; cbn in Hl |- *;
          [reflexivity | reflexivity | lia].
      * destruct (reduce_parameter v) as [v'|e] eqn:Ev; cbn.
        -- rewrite (proj1 IH (ex_intro _ q (ex_intro _ l (conj Hin Hl)))).
           reflexivity.
        -- destruct v as [| | | |l']; cbn in Ev; try discriminate.
           destruct l' as [|a [|b l']]; cbn in Ev; try discriminate;
             injection Ev as <-; reflexivity.
    + destruct (reduce_parameter v) as [v'|e] eqn:Ev; cbn.
      * destruct (parse_parameters ps) as [ps'|e] eqn:Eps; cbn;
          [discriminate|].
        intro E. destruct (proj2 IH E) as (q & l & Hin & Hl).
        exists q, l. split; [right; exact Hin | exact Hl].
      * intros _. destruct v as [| | | |l]; cbn in Ev; try discriminate.
        exists p, l. split; [left; reflexivity|].
        destruct l as [|a [|b l]]; cbn in Ev |- *; try lia; discriminate.
Qed.

(** The loop raises no error but [IndexError("list index out of range")]. *)
Lemma parse_parameters_only_IndexError (ps : dict) (e : exn) :
  parse_parameters ps = Raise e -> e = IndexError "list index out of range".
Proof.
  induction ps as [|[p v] ps IH]; cbn; [discriminate|].
  destruct (reduce_parameter v) as [v'|e'] eqn:Ev; cbn.
  - destruct (parse_parameters ps) as [ps'|e'']; cbn; [discriminate|].
    intro E. apply IH. exact E.
  - intro E. injection E as <-.
    destruct v as [| | | |l]; cbn in Ev; try discriminate.
    destruct l as [|a [|b l]]; cbn in Ev; try discriminate;
      injection Ev as <-; reflexivity.
Qed.

(** X14. The parameter loop of [parse] fails exactly when some parameter
    is a list with fewer than two elements, and every failure is
    [IndexError("list index out of range")] from [val[1]]: it raises
    nothing else. *)
Theorem X14_parse_parameters_short_list (ps : dict) :
  ((exists p l, In (p, PList l) ps /\ length l < 2) <->
   exists e, parse_parameters ps = Raise e) /\
  (forall e, parse_parameters ps = Raise e ->
   e = IndexError "list index out of range").
Proof.
  split.
  - rewrite parse_parameters_short_list_iff. split.
    + intro H. exists (IndexError "list index out of range"). exact H.
    + intros [e H]. rewrite H. f_equal.
      exact (parse_parameters_only_IndexError ps e H).
  - exact (parse_parameters_only_IndexError ps).
Qed.
